(** * RunCommand: the [execute_command] helper of Lunar_Bot

    A shallow embedding of [src/plugins/RunCommand/execute_command.py]
    and the properties of its outcome dictionary.

    The Python function talks to four things it does not define: the
    [shlex] tokenizer, the codecs behind [bytes.decode] / [str.encode],
    the builtin [str()] of arbitrary objects, and the [subprocess] module
    it receives as an argument.  They are gathered in the [Runtime]
    interface; everything else (validation, normalisation, the parameter
    dictionary, the handlers of the [try] statement, [safe_decode]) is
    translated clause by clause. *)

From Stdlib Require Import ZArith String Ascii List.
From stdpp Require Import base option list strings gmap pretty.

Open Scope Z_scope.
Open Scope string_scope.
Open Scope list_scope.

(** ** Python values *)

Abbreviation bytes := (list Byte.byte).

(** The objects that reach [execute_command] through [command] and
    [input_data], and the values stored in the outcome dictionary.  A
    [str] is held as its UTF-8 encoding, a [bytes] object as it is. *)
#[warnings="-register-all"]
Inductive pyobj :=
| PyNone
| PyBool (b : bool)
| PyInt (z : Z)
| PyStr (s : string)
| PyBytes (b : bytes)
| PyList (l : list pyobj)
| PyTuple (l : list pyobj).

(** The exception classes the function distinguishes.  [OtherException]
    stands for any further class deriving from [Exception], identified by
    its [__name__]; [SystemExit] derives from [BaseException] only, like
    [KeyboardInterrupt]. *)
Inductive exn :=
| CalledProcessError (returncode : Z) (output stderr : option bytes) (msg : string)
| TimeoutExpired (output stderr : option bytes) (msg : string)
| FileNotFoundError (msg : string)
| PermissionError (msg : string)
| KeyboardInterrupt
| SystemExit (msg : string)
| UnicodeDecodeError (msg : string)
| OtherException (name msg : string).

Definition AttributeError := OtherException "AttributeError".
Definition IndexError := OtherException "IndexError".
Definition TypeError := OtherException "TypeError".
Definition LookupError := OtherException "LookupError".
Definition UnicodeError := OtherException "UnicodeError".
Definition UnicodeEncodeError := OtherException "UnicodeEncodeError".

(** [isinstance(e, Exception)] *)
Definition is_Exception (e : exn) : bool :=
  match e with
  | KeyboardInterrupt | SystemExit _ => false
  | _ => true
  end.

(** [type(e).__name__] *)
Definition type_name (e : exn) : string :=
  match e with
  | CalledProcessError _ _ _ _ => "CalledProcessError"
  | TimeoutExpired _ _ _ => "TimeoutExpired"
  | FileNotFoundError _ => "FileNotFoundError"
  | PermissionError _ => "PermissionError"
  | KeyboardInterrupt => "KeyboardInterrupt"
  | SystemExit _ => "SystemExit"
  | UnicodeDecodeError _ => "UnicodeDecodeError"
  | OtherException name _ => name
  end.

(** [str(e)] *)
Definition exn_str (e : exn) : string :=
  match e with
  | CalledProcessError _ _ _ msg | TimeoutExpired _ _ msg
  | FileNotFoundError msg | PermissionError msg | SystemExit msg
  | UnicodeDecodeError msg | OtherException _ msg => msg
  | KeyboardInterrupt => ""
  end.

(** A Python expression either evaluates to a value or raises. *)
Inductive result (A : Type) :=
| Return (a : A)
| Raise (e : exn).
Arguments Return {A} a.
Arguments Raise {A} e.

(** What a codec raises: [UnicodeDecodeError], or some other class
    deriving from [Exception] ([LookupError] for an unknown encoding or
    handler, [UnicodeEncodeError], [UnicodeError], [TypeError]). *)
Inductive codec_error :=
| DecodeError (msg : string)
| CodecError (name msg : string).

Definition codec_exn (c : codec_error) : exn :=
  match c with
  | DecodeError msg => UnicodeDecodeError msg
  | CodecError name msg => OtherException name msg
  end.

Inductive codec_result (A : Type) :=
| Done (a : A)
| Failed (c : codec_error).
Arguments Done {A} a.
Arguments Failed {A} c.

(** ** The process layer's data *)

Inductive stream := PIPE.

(** The keyword arguments unpacked into [subprocess.run].  The keys
    ["input"] and ["env"] are optional in the dictionary; [p_env] holds the
    contents of the environment dictionary at the time of the call. *)
Record run_params := {
  p_args : pyobj;
  p_stdout : stream;
  p_stderr : stream;
  p_text : bool;
  p_timeout : Z;
  p_shell : bool;
  p_input : option pyobj;
  p_env : option (gmap string string);
}.

(** [subprocess.CompletedProcess] *)
Record CompletedProcess := {
  cp_stdout : option bytes;
  cp_stderr : option bytes;
  cp_returncode : Z;
}.

(** ** The runtime interface *)

Class Runtime := {
  (** [shlex.split(s)]; [None] when it raises [ValueError] *)
  shlex_split : string → option (list string);
  (** [data.decode(enc, errors=err)] *)
  bytes_decode : bytes → string → string → codec_result string;
  (** [text.encode(enc)] *)
  str_encode : string → string → codec_result bytes;
  (** [str(o)] for an object that is not itself a [str] *)
  builtin_str : pyobj → string;
  (** [subprocess.run], applied to the unpacked [params] *)
  subprocess_run : run_params → result CompletedProcess;
}.

(** ** The interpreter state

    Dictionaries are mutable objects: the store maps references to their
    contents, [os_environ] is the reference of [os.environ].  [run_calls]
    records every call of [subprocess.run], oldest first. *)
Record world := {
  store : gmap positive (gmap string string);
  run_calls : list run_params;
}.

Definition os_environ : positive := 1%positive.

(** State and exceptions. *)
Definition Py (A : Type) : Type := world → result A * world.

#[global] Instance Py_ret : MRet Py := λ A a w, (Return a, w).
#[global] Instance Py_bind : MBind Py := λ A B f m w,
  match m w with
  | (Return a, w') => f a w'
  | (Raise e, w') => (Raise e, w')
  end.

Definition raise {A} (e : exn) : Py A := λ w, (Raise e, w).

(** An expression without side effect. *)
Definition eval {A} (r : result A) : Py A := λ w, (r, w).

(** [try: body  except ...: handler]: the handler receives the exception
    and re-raises it when no clause matches.  An exception raised by the
    handler itself is not caught again. *)
Definition try_except {A} (body : Py A) (handler : exn → Py A) : Py A := λ w,
  match body w with
  | (Return a, w') => (Return a, w')
  | (Raise e, w') => handler e w'
  end.

(** [d.copy()]: a new dictionary object with the same contents. *)
Definition dict_copy (r : positive) : Py positive := λ w,
  let r' := fresh (dom (store w)) in
  (Return r', {| store := <[r' := default ∅ (store w !! r)]> (store w);
                 run_calls := run_calls w |}).

(** [d.update(m)]: in place; the keys of [m] win. *)
Definition dict_update (r : positive) (m : gmap string string) : Py () := λ w,
  (Return (), {| store := <[r := m ∪ default ∅ (store w !! r)]> (store w);
                 run_calls := run_calls w |}).

Definition dict_read (r : positive) : Py (gmap string string) := λ w,
  (Return (default ∅ (store w !! r)), w).

(** ** String helpers *)

Definition LF : string := String "010"%char "".

Definition flush (cur : string) : list string :=
  match cur with "" => [] | _ => [cur] end.

Definition byte_at (s : string) (i : nat) : N :=
  match String.get i s with
  | Some c => N_of_ascii c
  | None => 0
  end.

(** The number of bytes of the whitespace character [s] starts with, 0
    when it starts with none.  Whitespace is what [str.isspace] accepts:
    U+0009-000D, U+001C-0020, U+0085, U+00A0, U+1680, U+2000-200A, U+2028,
    U+2029, U+202F, U+205F and U+3000. *)
Definition whitespace_width (s : string) : nat :=
  let b0 := byte_at s 0 in
  let b1 := byte_at s 1 in
  let b2 := byte_at s 2 in
  if ((9 <=? b0) && (b0 <=? 13) || (28 <=? b0) && (b0 <=? 32))%N then 1%nat
  else if ((b0 =? 194) && ((b1 =? 133) || (b1 =? 160)))%N then 2%nat
  else if ((b0 =? 225) && (b1 =? 154) && (b2 =? 128))%N then 3%nat
  else if ((b0 =? 226) && (b1 =? 128)
           && ((128 <=? b2) && (b2 <=? 138) || (b2 =? 168) || (b2 =? 169) || (b2 =? 175)))%N
       then 3%nat
  else if ((b0 =? 226) && (b1 =? 129) && (b2 =? 159))%N then 3%nat
  else if ((b0 =? 227) && (b1 =? 128) && (b2 =? 128))%N then 3%nat
  else 0%nat.

(** [s.split()]: the maximal runs of non-whitespace characters.  [skip]
    counts the bytes still to drop of the whitespace character being
    read. *)
Fixpoint str_split_from (skip : nat) (cur : string) (s : string) : list string :=
  match s with
  | "" => flush cur
  | String c s' =>
      match skip with
      | S k => str_split_from k cur s'
      | O =>
          match whitespace_width s with
          | S k => flush cur ++ str_split_from k "" s'
          | O => str_split_from O (cur +:+ String c "") s'
          end
      end
  end.

Definition str_split (s : string) : list string := str_split_from 0 "" s.

(** ASCII whitespace, the separators of [bytes.split()] *)
Definition is_ascii_space (x : Byte.byte) : bool :=
  let n := Byte.to_N x in
  ((9 <=? n) && (n <=? 13) || (n =? 32))%N.

(** [b.split()] on a [bytes] object: the maximal runs of bytes that are
    not ASCII whitespace. *)
Fixpoint bytes_split_from (cur : bytes) (b : bytes) : list bytes :=
  match b with
  | [] => match cur with [] => [] | _ => [cur] end
  | x :: b' =>
      if is_ascii_space x
      then match cur with [] => [] | _ => [cur] end ++ bytes_split_from [] b'
      else bytes_split_from (cur ++ [x]) b'
  end.

Definition bytes_split (b : bytes) : list bytes := bytes_split_from [] b.

(** ** The function *)

Section ExecuteCommand.
Context {rt : Runtime}.

(** What an f-string field prints: a [str] as it is, anything else
    through [str()]. *)
Definition format_value (o : pyobj) : string :=
  match o with
  | PyStr s => s
  | _ => builtin_str o
  end.

(** [subprocess.run], with the call recorded. *)
Definition run (params : run_params) : Py CompletedProcess := λ w,
  (subprocess_run params,
   {| store := store w; run_calls := run_calls w ++ [params] |}).

(** [safe_decode(data)], lines 20-31.  The two [except] clauses belong to
    one [try]: what the second [decode] raises is handled by neither. *)
Definition safe_decode (enc err : string) (data : option bytes) : result string :=
  match data with
  | None => Return ""
  | Some b =>
      match bytes_decode b enc err with
      | Done s => Return s
      | Failed (DecodeError _) =>
          match bytes_decode b enc "replace" with
          | Done s => Return s
          | Failed c => Raise (codec_exn c)
          end
      | Failed (CodecError _ _) => Return (builtin_str (PyBytes b))
      end
  end.

(** [isinstance(command, (list, tuple, str))], line 34 *)
Definition valid_command_type (command : pyobj) : bool :=
  match command with
  | PyList _ | PyTuple _ | PyStr _ => true
  | _ => false
  end.

(** Lines 42-50: the command and the shell flag handed to the process
    layer. *)
Definition prepare_command (command : pyobj) (shell : bool) : pyobj * bool :=
  let use_shell := shell in
  match command with
  | PyStr s =>
      if negb shell then
        match shlex_split s with
        | Some tokens => (PyList (PyStr <$> tokens), use_shell)
        | None => (command, true)
        end
      else (command, use_shell)
  | _ => (command, use_shell)
  end.

(** [command[0] if isinstance(command, list) else command.split()[0]],
    lines 109 and 116.  Of the objects that are no list, texts and
    [bytes] have a [split] method; the others raise [AttributeError]. *)
Definition cmd_name (command : pyobj) : result pyobj :=
  match command with
  | PyList l =>
      match l with
      | x :: _ => Return x
      | [] => Raise (IndexError "list index out of range")
      end
  | PyStr s =>
      match str_split s with
      | x :: _ => Return (PyStr x)
      | [] => Raise (IndexError "list index out of range")
      end
  | PyBytes b =>
      match bytes_split b with
      | x :: _ => Return (PyBytes x)
      | [] => Raise (IndexError "list index out of range")
      end
  | PyTuple _ => Raise (AttributeError "'tuple' object has no attribute 'split'")
  | PyNone => Raise (AttributeError "'NoneType' object has no attribute 'split'")
  | PyBool _ => Raise (AttributeError "'bool' object has no attribute 'split'")
  | PyInt _ => Raise (AttributeError "'int' object has no attribute 'split'")
  end.

(** Lines 64-68: the value stored under ["input"], if any. *)
Definition prepare_input (encoding : string) (input_data : pyobj) : result (option pyobj) :=
  match input_data with
  | PyNone => Return None
  | PyStr s =>
      match str_encode s encoding with
      | Done b => Return (Some (PyBytes b))
      | Failed c => Raise (codec_exn c)
      end
  | _ => Return (Some input_data)
  end.

(** Lines 70-75: the dictionary stored under ["env"], if any. *)
Definition prepare_env (environment : option (gmap string string)) : Py (option positive) :=
  match environment with
  | Some overrides =>
      env ← dict_copy os_environ;
      dict_update env overrides;;
      mret (Some env)
  | None => mret None
  end.

(** Lines 53-88: the body of the [try] statement. *)
Definition try_body (command : pyobj) (use_shell : bool) (timeout : Z)
    (encoding errors : string) (input_data : pyobj)
    (environment : option (gmap string string)) : Py (gmap string pyobj) :=
  input ← eval (prepare_input encoding input_data);
  env ← prepare_env environment;
  env_contents ← match env with
                 | Some r => contents ← dict_read r; mret (Some contents)
                 | None => mret None
                 end;
  result ← run {| p_args := command; p_stdout := PIPE; p_stderr := PIPE;
                  p_text := false; p_timeout := timeout; p_shell := use_shell;
                  p_input := input; p_env := env_contents |};
  stdout ← eval (safe_decode encoding errors (cp_stdout result));
  stderr ← eval (safe_decode encoding errors (cp_stderr result));
  mret ({[ "stdout" := PyStr stdout;
           "stderr" := PyStr stderr;
           "returncode" := PyInt (cp_returncode result) ]} : gmap string pyobj).

(** Lines 90-133: the [except] clauses, in the order they are tried. *)
Definition handlers (command : pyobj) (timeout : Z) (encoding errors : string)
    (e : exn) : Py (gmap string pyobj) :=
  match e with
  | CalledProcessError returncode e_stdout e_stderr _ =>
      stdout ← eval (safe_decode encoding errors e_stdout);
      stderr ← match e_stderr with
               | Some _ => eval (safe_decode encoding errors e_stderr)
               | None => mret (exn_str e)
               end;
      mret ({[ "stdout" := PyStr stdout;
               "stderr" := PyStr stderr;
               "returncode" := PyInt returncode ]} : gmap string pyobj)
  | TimeoutExpired e_stdout e_stderr _ =>
      stdout ← match e_stdout with
               | Some _ => eval (safe_decode encoding errors e_stdout)
               | None => mret ""
               end;
      stderr ← match e_stderr with
               | Some _ => eval (safe_decode encoding errors e_stderr)
               | None => mret ""
               end;
      let stderr := stderr +:+ LF +:+ "Command timed out after " +:+ pretty timeout
                    +:+ " seconds" in
      mret ({[ "stdout" := PyStr stdout;
               "stderr" := PyStr stderr;
               "returncode" := PyInt (-3);
               "timeout" := PyBool true ]} : gmap string pyobj)
  | FileNotFoundError _ =>
      name ← eval (cmd_name command);
      mret ({[ "stdout" := PyNone;
               "stderr" := PyStr ("Command not found: " +:+ format_value name +:+ LF
                                  +:+ "Error: " +:+ exn_str e);
               "returncode" := PyInt (-4) ]} : gmap string pyobj)
  | PermissionError _ =>
      name ← eval (cmd_name command);
      mret ({[ "stdout" := PyNone;
               "stderr" := PyStr ("Permission denied for command: " +:+ format_value name
                                  +:+ LF +:+ "Error: " +:+ exn_str e);
               "returncode" := PyInt (-5) ]} : gmap string pyobj)
  | KeyboardInterrupt =>
      mret ({[ "stdout" := PyNone;
               "stderr" := PyStr "Command execution interrupted by user";
               "returncode" := PyInt (-6) ]} : gmap string pyobj)
  | _ =>
      if is_Exception e then
        mret ({[ "stdout" := PyNone;
                 "stderr" := PyStr ("Unexpected error: " +:+ type_name e +:+ LF
                                    +:+ "Details: " +:+ exn_str e);
                 "returncode" := PyInt (-1) ]} : gmap string pyobj)
      else raise e
  end.

(** [execute_command(command, subprocess, timeout, encoding, errors,
    shell, input_data, environment)].  The [subprocess] argument is the
    runtime's process layer; [timeout] is a whole number of seconds;
    [environment] is [None] or a dictionary of texts. *)
Definition execute_command (command : pyobj) (timeout : Z)
    (encoding errors : string) (shell : bool) (input_data : pyobj)
    (environment : option (gmap string string)) : Py (gmap string pyobj) :=
  if negb (valid_command_type command) then
    mret ({[ "stdout" := PyNone;
             "stderr" := PyStr "Error: command must be a string or list of strings";
             "returncode" := PyInt (-2) ]} : gmap string pyobj)
  else
    let '(command, use_shell) := prepare_command command shell in
    try_except
      (try_body command use_shell timeout encoding errors input_data environment)
      (handlers command timeout encoding errors).

End ExecuteCommand.

(** ** A runtime to run examples on

    The library side of the interface, written after CPython on a POSIX
    host: the tokenizer of [shlex.split], [repr] of the modelled objects,
    the ["ascii"], ["latin-1"] and ["idna"] codecs (any other name is
    answered as an unknown encoding), and a process layer that knows a
    handful of programs. *)
Module Sample.

(** *** [shlex.split] *)

Inductive lex_state :=
| Between                        (* state [' ']: skipping whitespace *)
| InWord                         (* state ['a'] *)
| InQuote (q : ascii)            (* state is the quote character *)
| Escaped (back : option ascii). (* state is the backslash; [back] is the
                                    quote to return to, if any *)

Definition double_quote : ascii := "034"%char.
Definition backslash : ascii := "\"%char.

Definition is_shlex_whitespace (c : ascii) : bool :=
  bool_decide (c ∈ [" "; "009"; "013"; "010"]%char).

Definition is_quote (c : ascii) : bool := bool_decide (c ∈ ["'"%char; double_quote]).

Definition emit (quoted : bool) (token : string) : list string :=
  if quoted then [token] else flush token.

Fixpoint tokens (st : lex_state) (quoted : bool) (token s : string)
    : option (list string) :=
  match s with
  | "" =>
      match st with
      | Between => Some []
      | InWord => Some (emit quoted token)
      | InQuote _ | Escaped _ => None
      end
  | String c s' =>
      match st with
      | Between =>
          if is_shlex_whitespace c then tokens Between false "" s'
          else if bool_decide (c = backslash) then tokens (Escaped None) false "" s'
          else if is_quote c then tokens (InQuote c) true "" s'
          else tokens InWord false (String c "") s'
      | InWord =>
          if is_shlex_whitespace c then
            (emit quoted token ++.) <$> tokens Between false "" s'
          else if is_quote c then tokens (InQuote c) true token s'
          else if bool_decide (c = backslash) then tokens (Escaped None) quoted token s'
          else tokens InWord quoted (token +:+ String c "") s'
      | InQuote q =>
          if bool_decide (c = q) then tokens InWord true token s'
          else if bool_decide (c = backslash) && bool_decide (q = double_quote) then
            tokens (Escaped (Some q)) true token s'
          else tokens (InQuote q) true (token +:+ String c "") s'
      | Escaped back =>
          match back with
          | Some q =>
              let token :=
                if bool_decide (c ≠ backslash) && bool_decide (c ≠ q)
                then token +:+ String backslash "" else token in
              tokens (InQuote q) quoted (token +:+ String c "") s'
          | None => tokens InWord quoted (token +:+ String c "") s'
          end
      end
  end.

Definition split (s : string) : option (list string) := tokens Between false "" s.

(** *** [repr] and [str] *)

Definition hex_digit (n : N) : ascii :=
  ascii_of_N (if (n <? 10)%N then 48 + n else 87 + n).

Definition hex_escape (c : ascii) : string :=
  let n := N_of_ascii c in
  String backslash (String "x" (String (hex_digit (n / 16)) (String (hex_digit (n mod 16)) ""))).

Definition contains (c : ascii) (s : string) : bool :=
  bool_decide (c ∈ list_ascii_of_string s).

(** The quote [repr] wraps a text in. *)
Definition repr_quote (s : string) : ascii :=
  if contains "'" s && negb (contains double_quote s) then double_quote else "'"%char.

(** [keep_high] says whether bytes above 127 stay as they are: never in
    a [bytes] literal; in a [str] they belong to characters outside
    ASCII, taken here to be printable. *)
Definition repr_char (keep_high : bool) (quote c : ascii) : string :=
  let n := N_of_ascii c in
  if bool_decide (c = backslash) || bool_decide (c = quote) then String backslash (String c "")
  else if (n =? 9)%N then "\t"
  else if (n =? 10)%N then "\n"
  else if (n =? 13)%N then "\r"
  else if (n <? 32)%N || (n =? 127)%N then hex_escape c
  else if (n <? 127)%N || keep_high then String c ""
  else hex_escape c.

Fixpoint repr_chars (keep_high : bool) (quote : ascii) (s : string) : string :=
  match s with
  | "" => ""
  | String c s' => repr_char keep_high quote c +:+ repr_chars keep_high quote s'
  end.

Definition repr_quoted (keep_high : bool) (s : string) : string :=
  let q := repr_quote s in
  String q (repr_chars keep_high q s) +:+ String q "".

Definition join (sep : string) (l : list string) : string :=
  match l with
  | [] => ""
  | x :: l' => foldl (λ acc y, acc +:+ sep +:+ y) x l'
  end.

Fixpoint repr (o : pyobj) : string :=
  match o with
  | PyNone => "None"
  | PyBool b => if b then "True" else "False"
  | PyInt z => pretty z
  | PyStr s => repr_quoted true s
  | PyBytes b => "b" +:+ repr_quoted false (string_of_list_byte b)
  | PyList l => "[" +:+ join ", " (repr <$> l) +:+ "]"
  | PyTuple l =>
      match l with
      | [x] => "(" +:+ repr x +:+ ",)"
      | _ => "(" +:+ join ", " (repr <$> l) +:+ ")"
      end
  end.

Definition str (o : pyobj) : string :=
  match o with
  | PyStr s => s
  | _ => repr o
  end.

(** *** Codecs *)

Definition below_128 (x : Byte.byte) : bool := (Byte.to_N x <? 128)%N.

Definition is_ascii (b : bytes) : bool := forallb below_128 b.

(** U+FFFD, the replacement character *)
Definition replacement : string :=
  String (ascii_of_N 239) (String (ascii_of_N 191) (String (ascii_of_N 189) "")).

Definition utf8_of_byte (x : Byte.byte) : string :=
  let n := Byte.to_N x in
  if (n <? 128)%N then String (ascii_of_N n) ""
  else String (ascii_of_N (192 + n / 64)) (String (ascii_of_N (128 + n mod 64)) "").

Definition concat_map {A} (f : A → string) (l : list A) : string :=
  foldr (λ x acc, f x +:+ acc) "" l.

(** The handlers [strict], [ignore] and [replace]; any other name is
    that of an unregistered handler. *)
Definition decode_ascii (b : bytes) (err : string) : codec_result string :=
  if is_ascii b then Done (string_of_list_byte b)
  else if bool_decide (err = "strict") then
    Failed (DecodeError "'ascii' codec can't decode byte: ordinal not in range(128)")
  else if bool_decide (err = "ignore") then Done (string_of_list_byte (filter below_128 b))
  else if bool_decide (err = "replace") then
    Done (concat_map (λ x, if below_128 x then utf8_of_byte x else replacement) b)
  else Failed (CodecError "LookupError" ("unknown error handler name '" +:+ err +:+ "'")).

(** ["idna"] supports the [strict] handler only; on labels without the
    ACE prefix, the only ones used here, it decodes as ASCII. *)
Definition decode_idna (b : bytes) (err : string) : codec_result string :=
  if negb (bool_decide (err = "strict")) then
    Failed (CodecError "UnicodeError" ("Unsupported error handling " +:+ err))
  else if is_ascii b then Done (string_of_list_byte b)
  else Failed (DecodeError "'ascii' codec can't decode byte: ordinal not in range(128)").

(** ["latin-1"] maps every byte to the code point of the same number and
    never consults the handler. *)
Definition decode (b : bytes) (enc err : string) : codec_result string :=
  if bool_decide (enc = "ascii") then decode_ascii b err
  else if bool_decide (enc = "latin-1") then Done (concat_map utf8_of_byte b)
  else if bool_decide (enc = "idna") then decode_idna b err
  else Failed (CodecError "LookupError" ("unknown encoding: " +:+ enc)).

(** The code points below 256 of a text, [None] if it has others. *)
Fixpoint latin1_of_utf8 (s : string) : option (list N) :=
  match s with
  | "" => Some []
  | String c s' =>
      let n := N_of_ascii c in
      if (n <? 128)%N then (n ::.) <$> latin1_of_utf8 s'
      else
        match s' with
        | String d s'' =>
            if ((n =? 194) || (n =? 195))%N
            then ((64 * (n - 192) + (N_of_ascii d - 128))%N ::.) <$> latin1_of_utf8 s''
            else None
        | "" => None
        end
  end.

Definition of_N (n : N) : Byte.byte := default Byte.x00 (Byte.of_N n).

Definition encode (s : string) (enc : string) : codec_result bytes :=
  if bool_decide (enc = "ascii") || bool_decide (enc = "latin-1") then
    match latin1_of_utf8 s with
    | Some l =>
        if bool_decide (enc = "latin-1") || forallb (λ n, (n <? 128)%N) l
        then Done (of_N <$> l)
        else Failed (CodecError "UnicodeEncodeError"
                       "'ascii' codec can't encode character: ordinal not in range(128)")
    | None =>
        Failed (CodecError "UnicodeEncodeError"
                  ("'" +:+ enc +:+ "' codec can't encode character: ordinal not in range"))
    end
  else Failed (CodecError "LookupError" ("unknown encoding: " +:+ enc)).

(** *** The process layer *)

Definition to_bytes (s : string) : bytes := list_byte_of_string s.

(** The argument vector, when it is made of texts. *)
Fixpoint argv (l : list pyobj) : option (list string) :=
  match l with
  | [] => Some []
  | PyStr s :: l' => (s ::.) <$> argv l'
  | _ => None
  end.

Definition timed_out (p : run_params) (output stderr : option bytes)
    : result CompletedProcess :=
  Raise (TimeoutExpired output stderr
           ("Command '" +:+ repr (p_args p) +:+ "' timed out after "
            +:+ pretty (p_timeout p) +:+ " seconds")).

Definition exited (status : Z) (output : bytes) : result CompletedProcess :=
  Return {| cp_stdout := Some output; cp_stderr := Some []; cp_returncode := status |}.

(** [sh -c script], for the two scripts used below; any other script is
    taken to do nothing. *)
Definition sh_script (script : string) (p : run_params) : result CompletedProcess :=
  if bool_decide (script = "kill -ABRT $$") then
    (* killed by SIGABRT: [returncode] is the negated signal number *)
    exited (-6) []
  else if bool_decide (script = "printf '\377'; sleep infinity") then
    (* one byte written, then killed at the timeout *)
    timed_out p (Some [Byte.xff]) None
  else exited 0 [].

Definition spawn (program : string) (arguments : list string) (p : run_params)
    : result CompletedProcess :=
  if bool_decide (program = "echo") then exited 0 (to_bytes (join " " arguments +:+ LF))
  else if bool_decide (program = "false") then exited 1 []
  else if bool_decide (program = "sleep") then
    if bool_decide (arguments = ["infinity"]) then timed_out p None None else exited 0 []
  else if bool_decide (program = "sh") then
    match arguments with
    | ["-c"; script] => sh_script script p
    | _ => exited 0 []
    end
  else if bool_decide (program = "/etc/shadow") then
    Raise (PermissionError "[Errno 13] Permission denied: '/etc/shadow'")
  else
    Raise (FileNotFoundError
             ("[Errno 2] No such file or directory: " +:+ repr (PyStr program))).

(** [/bin/sh -c line]: the shell reports what it cannot parse, find or
    execute through its exit status. *)
Definition run_shell (line : string) (p : run_params) : result CompletedProcess :=
  match split line with
  | None =>
      Return {| cp_stdout := Some [];
                cp_stderr := Some (to_bytes ("/bin/sh: 1: Syntax error: Unterminated quoted string" +:+ LF));
                cp_returncode := 2 |}
  | Some [] => Return {| cp_stdout := Some []; cp_stderr := Some []; cp_returncode := 0 |}
  | Some (program :: arguments) =>
      match spawn program arguments p with
      | Raise (FileNotFoundError _) =>
          Return {| cp_stdout := Some [];
                    cp_stderr := Some (to_bytes ("/bin/sh: 1: " +:+ program +:+ ": not found" +:+ LF));
                    cp_returncode := 127 |}
      | Raise (PermissionError _) =>
          Return {| cp_stdout := Some [];
                    cp_stderr := Some (to_bytes ("/bin/sh: 1: " +:+ program +:+ ": Permission denied" +:+ LF));
                    cp_returncode := 126 |}
      | r => r
      end
  end.

Definition run_process (p : run_params) : result CompletedProcess :=
  match p_args p with
  | PyStr s => if p_shell p then run_shell s p else spawn s [] p
  | PyList l | PyTuple l =>
      match argv l with
      | Some (program :: arguments) =>
          if p_shell p then run_shell program p else spawn program arguments p
      | Some [] => Raise (IndexError "list index out of range")
      | None => Raise (TypeError "expected str, bytes or os.PathLike object")
      end
  | _ => Raise (TypeError "expected str, bytes or os.PathLike object")
  end.

#[export] Instance runtime : Runtime := {|
  shlex_split := split;
  bytes_decode := decode;
  str_encode := encode;
  builtin_str := str;
  subprocess_run := run_process;
|}.

(** The interpreter before the call: [os.environ] holds two variables and
    [subprocess.run] has not been called. *)
Definition initial : world := {|
  store := {[ os_environ := {[ "HOME" := "/root"; "LANG" := "C" ]} ]};
  run_calls := [];
|}.

End Sample.

(** * The plugin window of the setup wizard

    [JianerSetupPluginWindow.updateContent] of [src/WizardUIs.py] fills
    the widgets of the dialog from four texts.  The texts it computes are
    modelled; the wiring of signals and pages is the toolkit's. *)

(** The number of bytes of the line boundary [s] starts with, 0 when it
    starts with none.  The boundaries of [str.splitlines] are CR LF, LF,
    VT, FF, CR, FS, GS, RS, U+0085, U+2028 and U+2029. *)
Definition linebreak_width (s : string) : nat :=
  let b0 := byte_at s 0 in
  let b1 := byte_at s 1 in
  let b2 := byte_at s 2 in
  if ((b0 =? 13) && (b1 =? 10))%N then 2%nat
  else if ((10 <=? b0) && (b0 <=? 13) || (28 <=? b0) && (b0 <=? 30))%N then 1%nat
  else if ((b0 =? 194) && (b1 =? 133))%N then 2%nat
  else if ((b0 =? 226) && (b1 =? 128) && ((b2 =? 168) || (b2 =? 169)))%N then 3%nat
  else 0%nat.

(** [s.splitlines()]: the lines without their boundaries; a boundary at
    the very end opens no further line. *)
Fixpoint splitlines_from (skip : nat) (cur : string) (s : string) : list string :=
  match s with
  | "" => flush cur
  | String c s' =>
      match skip with
      | S k => splitlines_from k cur s'
      | O =>
          match linebreak_width s with
          | S k => cur :: splitlines_from k "" s'
          | O => splitlines_from O (cur +:+ String c "") s'
          end
      end
  end.

Definition splitlines (s : string) : list string := splitlines_from 0 "" s.

(** Whether no line boundary starts anywhere in [s]. *)
Fixpoint single_line (s : string) : bool :=
  match s with
  | "" => true
  | String _ s' => bool_decide (linebreak_width s = 0%nat) && single_line s'
  end.

Definition CRLF : string := String "013"%char LF.

(** The truth value of [line.strip()]: whether the line has a character
    that is not whitespace. *)
Fixpoint has_text_from (skip : nat) (s : string) : bool :=
  match s with
  | "" => false
  | String _ s' =>
      match skip with
      | S k => has_text_from k s'
      | O =>
          match whitespace_width s with
          | S k => has_text_from k s'
          | O => true
          end
      end
  end.

Definition has_text (line : string) : bool := has_text_from 0 line.

(** [needle in text] *)
Fixpoint str_contains (needle text : string) : bool :=
  String.prefix needle text
  || match text with
     | "" => false
     | String _ text' => str_contains needle text'
     end.

(** [sep.join(parts)] *)
Fixpoint str_join (sep : string) (parts : list string) : string :=
  match parts with
  | [] => ""
  | [x] => x
  | x :: parts' => x +:+ sep +:+ str_join sep parts'
  end.

Definition no_dependencies : string := "没有相关依赖".
Definition dependencies_header : string := "该插件要求以下依赖库：".

(** Lines 152-154, the text of the dependency page: the requirements
    one per line, indented, blank lines dropped, under a header; or the
    text as it is when it holds the "no dependencies" phrase.  [linesep]
    is [os.linesep]. *)
Definition depend_page_text (linesep depend : string) : string :=
  if negb (str_contains no_dependencies depend) then
    dependencies_header +:+ LF
    +:+ str_join linesep ((λ line, "    " +:+ line) <$> filter has_text (splitlines depend))
  else depend.

(** What the widgets show after [updateContent], and the page the
    second button opens. *)
Record plugin_window := {
  LargeTitleLabel : string;
  IntroPageText : string;
  DependPageText : string;
  LicencePageText : string;
  AblitilyButton_2 : string;
  ManageButton_2 : string;
  opened_page : string;
}.

Definition updateContent (linesep title intro depend licence : string) : plugin_window := {|
  LargeTitleLabel := " " +:+ title;
  IntroPageText := intro;
  DependPageText := depend_page_text linesep depend;
  LicencePageText := licence;
  AblitilyButton_2 := "打开页面";
  ManageButton_2 := "好";
  opened_page := "https://github.com/IntelliMarkets/Jianer_Plugins_Index/tree/main/" +:+ title;
|}.

(** * Derived notions

    What the statements below speak of: the outcome dictionaries, the
    parameters and the store at the time of the call, and the wording of
    the specification where it is compared with the code. *)

Section Derived.
Context {rt : Runtime}.

Implicit Types (command input_data : pyobj) (timeout : Z) (encoding errors : string)
  (shell : bool) (environment : option (gmap string string)) (w : world).

(** The outcome of the validation failure, line 35. *)
Definition bad_argument_outcome : gmap string pyobj :=
  {[ "stdout" := PyNone;
     "stderr" := PyStr "Error: command must be a string or list of strings";
     "returncode" := PyInt (-2) ]}.

(** The parameters [subprocess.run] is called with, once the command is
    prepared and the input encoded. *)
Definition params_of command (use_shell : bool) timeout (input : option pyobj)
    environment w : run_params :=
  {| p_args := command; p_stdout := PIPE; p_stderr := PIPE; p_text := false;
     p_timeout := timeout; p_shell := use_shell; p_input := input;
     p_env := match environment with
              | Some overrides => Some (overrides ∪ default ∅ (store w !! os_environ))
              | None => None
              end |}.

(** The store once the ["env"] dictionary is built: a new object holds
    the overlay, no existing object is written. *)
Definition store_after environment w : gmap positive (gmap string string) :=
  match environment with
  | Some overrides =>
      <[fresh (dom (store w)) := overrides ∪ default ∅ (store w !! os_environ)]> (store w)
  | None => store w
  end.

(** Lines 81-88: the outcome of a process that completed. *)
Definition completed_outcome encoding errors (completed : CompletedProcess)
    : result (gmap string pyobj) :=
  match safe_decode encoding errors (cp_stdout completed) with
  | Return stdout =>
      match safe_decode encoding errors (cp_stderr completed) with
      | Return stderr =>
          Return {[ "stdout" := PyStr stdout;
                    "stderr" := PyStr stderr;
                    "returncode" := PyInt (cp_returncode completed) ]}
      | Raise e => Raise e
      end
  | Raise e => Raise e
  end.

(** The decoding chain in the specification's words: the configured
    policy, then the replacement policy if that raises, then the text
    form of the raw bytes if that raises too; nothing for an absent
    stream. *)
Definition decode_chain (enc err : string) (data : option bytes) : string :=
  match data with
  | None => ""
  | Some b =>
      match bytes_decode b enc err with
      | Done s => s
      | Failed _ =>
          match bytes_decode b enc "replace" with
          | Done s => s
          | Failed _ => builtin_str (PyBytes b)
          end
      end
  end.

End Derived.

Definition is_str (o : pyobj) : bool :=
  match o with PyStr _ => true | _ => false end.

(** "A string or an ordered sequence of strings", as the specification
    words the accepted commands. *)
Definition str_or_sequence_of_str (command : pyobj) : bool :=
  match command with
  | PyStr _ => true
  | PyList l | PyTuple l => forallb is_str l
  | _ => false
  end.




Abbreviation sample_execute_command := (@execute_command Sample.runtime).

(** The exceptions deriving from [Exception] that no clause names: they
    reach the last one. *)
Definition reaches_last_clause (e : exn) : bool :=
  match e with
  | UnicodeDecodeError _ | OtherException _ _ => true
  | _ => false
  end.

(** The process layer of a caller that checks the exit status. *)
Definition checking_runtime : Runtime := {|
  shlex_split := Sample.split;
  bytes_decode := Sample.decode;
  str_encode := Sample.encode;
  builtin_str := Sample.str;
  subprocess_run := λ p,
    match Sample.run_process p with
    | Return completed =>
        if bool_decide (cp_returncode completed = 0) then Return completed
        else Raise (CalledProcessError (cp_returncode completed) (cp_stdout completed)
                      None ("Command '" +:+ Sample.repr (p_args p)
                            +:+ "' returned non-zero exit status "
                            +:+ pretty (cp_returncode completed) +:+ "."))
    | Raise e => Raise e
    end;
|}.

(** * Properties *)

(** ** The helpers on small inputs *)

Example str_split_words : str_split "  ls   -l /tmp " = ["ls"; "-l"; "/tmp"].
Proof. reflexivity. Qed.

Example str_split_blank : str_split "   " = [].
Proof. reflexivity. Qed.

(** U+00A0, the no-break space, separates words like any whitespace. *)
Example str_split_no_break_space :
  str_split ("a" +:+ String (ascii_of_N 194) (String (ascii_of_N 160) "b")) = ["a"; "b"].
Proof. reflexivity. Qed.

Example split_quoted : Sample.split "'foo bar'.exe -x 1" = Some ["foo bar.exe"; "-x"; "1"].
Proof. reflexivity. Qed.

Example split_escaped : Sample.split "a\ b  c '' d" = Some ["a b"; "c"; ""; "d"].
Proof. reflexivity. Qed.

Example split_unterminated : Sample.split "echo 'unterminated" = None.
Proof. reflexivity. Qed.

Example repr_bytes : Sample.repr (PyBytes [Byte.x61; Byte.xff; Byte.x0a]) = "b'a\xff\n'".
Proof. reflexivity. Qed.

Example repr_tuple :
  Sample.repr (PyTuple [PyStr "it's"; PyInt (-3)]) = "(" +:+ String Sample.double_quote "it's"
                                                   +:+ String Sample.double_quote ", -3)".
Proof. reflexivity. Qed.

Example decode_latin1 : Sample.decode [Byte.x63; Byte.xe9] "latin-1" "strict" = Done "cé".
Proof. reflexivity. Qed.

Example encode_latin1 : Sample.encode "cé" "latin-1" = Done [Byte.x63; Byte.xe9].
Proof. reflexivity. Qed.

Example encode_ascii_fails :
  Sample.encode "cé" "ascii"
  = Failed (CodecError "UnicodeEncodeError"
              "'ascii' codec can't encode character: ordinal not in range(128)").
Proof. reflexivity. Qed.

(** A command that completes: [echo] prints its arguments. *)
Example echo_outcome :
  (@execute_command Sample.runtime (PyStr "echo 'hello world'") 30 "latin-1" "ignore"
     false PyNone None Sample.initial).1
  = Return {[ "stdout" := PyStr ("hello world" +:+ LF);
              "stderr" := PyStr "";
              "returncode" := PyInt 0 ]}.
Proof. reflexivity. Qed.

(** ** Unfolding the monad *)

Ltac unfold_py :=
  unfold try_except, prepare_env, run, eval, dict_copy, dict_update, dict_read,
    raise, mbind, mret, Py_bind, Py_ret in *.

Ltac byte_case :=
  match goal with
  | H : context [(?a =? ?b)%N] |- _ => destruct (N.eqb_spec a b)
  | H : context [(?a <=? ?b)%N] |- _ => destruct (N.leb_spec a b)
  | |- context [(?a =? ?b)%N] => destruct (N.eqb_spec a b)
  | |- context [(?a <=? ?b)%N] => destruct (N.leb_spec a b)
  end; simpl in *; try done; try lia.

Lemma app_singleton_neq {A} (l : list A) (x : A) : l ≠ l ++ [x].
Proof.
  intros H. apply (f_equal length) in H. rewrite length_app in H. simpl in H. lia.
Qed.

Lemma app_singleton_inj {A} (l : list A) (x y : A) : l ++ [x] = l ++ [y] → x = y.
Proof. intros H. apply app_inv_head in H. congruence. Qed.

(** ** The shape of a call *)

Section Properties.
Context {rt : Runtime}.

Implicit Types (command input_data : pyobj) (timeout : Z) (encoding errors : string)
  (shell : bool) (environment : option (gmap string string)) (w : world)
  (d : gmap string pyobj).

Lemma try_body_unfold command use_shell timeout encoding errors input_data environment w :
  try_body command use_shell timeout encoding errors input_data environment w =
  match prepare_input encoding input_data with
  | Raise e => (Raise e, w)
  | Return input =>
      let p := params_of command use_shell timeout input environment w in
      (match subprocess_run p with
       | Return completed => completed_outcome encoding errors completed
       | Raise e => Raise e
       end,
       {| store := store_after environment w; run_calls := run_calls w ++ [p] |})
  end.
Proof.
  unfold try_body, completed_outcome, params_of, store_after. unfold_py.
  destruct (prepare_input encoding input_data) as [input|e]; [|done].
  destruct environment as [overrides|]; simpl.
  - rewrite !lookup_insert_eq, insert_insert_eq. simpl.
    destruct (subprocess_run _) as [completed|e]; [|done].
    destruct (safe_decode _ _ (cp_stdout _)); [|done].
    by destruct (safe_decode _ _ (cp_stderr _)).
  - destruct (subprocess_run _) as [completed|e]; [|done].
    destruct (safe_decode _ _ (cp_stdout _)); [|done].
    by destruct (safe_decode _ _ (cp_stderr _)).
Qed.

(** The handlers read the exception and the command; they leave the
    interpreter state alone. *)
Lemma handlers_world command timeout encoding errors e w :
  (handlers command timeout encoding errors e w).2 = w.
Proof.
  unfold handlers. unfold_py.
  destruct e; simpl; repeat case_match; simplify_eq/=; done.
Qed.

(** What an encoder failure turns into: never one of the classes with a
    handler of their own. *)
Lemma prepare_input_raises encoding input_data e :
  prepare_input encoding input_data = Raise e → ∃ c, e = codec_exn c.
Proof. unfold prepare_input. intros H. repeat case_match; simplify_eq; eauto. Qed.

Lemma safe_decode_raises encoding errors data e :
  safe_decode encoding errors data = Raise e → ∃ c, e = codec_exn c.
Proof. unfold safe_decode. intros H. repeat case_match; simplify_eq; eauto. Qed.

Lemma completed_outcome_raises encoding errors completed e :
  completed_outcome encoding errors completed = Raise e → ∃ c, e = codec_exn c.
Proof.
  unfold completed_outcome. intros H.
  repeat case_match; simplify_eq; eauto using safe_decode_raises.
Qed.

(** A codec failure reaches the last clause, [except Exception]. *)
Lemma handlers_codec_exn command timeout encoding errors c w :
  handlers command timeout encoding errors (codec_exn c) w =
  (Return {[ "stdout" := PyNone;
             "stderr" := PyStr ("Unexpected error: " +:+ type_name (codec_exn c) +:+ LF
                                +:+ "Details: " +:+ exn_str (codec_exn c));
             "returncode" := PyInt (-1) ]}, w).
Proof. by destruct c. Qed.

Lemma execute_command_unfold command timeout encoding errors shell input_data environment w :
  valid_command_type command = true →
  execute_command command timeout encoding errors shell input_data environment w =
  try_except
    (try_body (prepare_command command shell).1 (prepare_command command shell).2
       timeout encoding errors input_data environment)
    (handlers (prepare_command command shell).1 timeout encoding errors) w.
Proof.
  intros Hv. unfold execute_command. rewrite Hv. simpl.
  by destruct (prepare_command command shell).
Qed.

(** A tuple is handed to the process layer, and to the handlers, as it
    is. *)
Lemma prepare_command_tuple l shell : prepare_command (PyTuple l) shell = (PyTuple l, shell).
Proof. done. Qed.

(** A call of [execute_command] calls [subprocess.run] at most once, and
    what it returns or raises is decided by that call. *)
Lemma execute_command_cases command timeout encoding errors shell input_data environment w :
  valid_command_type command = true →
  let cmd := (prepare_command command shell).1 in
  let use_shell := (prepare_command command shell).2 in
  execute_command command timeout encoding errors shell input_data environment w =
  match prepare_input encoding input_data with
  | Raise e => handlers cmd timeout encoding errors e w
  | Return input =>
      let p := params_of cmd use_shell timeout input environment w in
      let w' := {| store := store_after environment w; run_calls := run_calls w ++ [p] |} in
      match subprocess_run p with
      | Return completed =>
          match completed_outcome encoding errors completed with
          | Return d => (Return d, w')
          | Raise e => handlers cmd timeout encoding errors e w'
          end
      | Raise e => handlers cmd timeout encoding errors e w'
      end
  end.
Proof.
  intros Hv cmd use_shell. rewrite execute_command_unfold by done.
  unfold try_except. rewrite try_body_unfold. fold cmd use_shell.
  destruct (prepare_input encoding input_data); [|done]. simpl.
  destruct (subprocess_run _); [|done].
  by destruct (completed_outcome _ _ _).
Qed.

Lemma execute_command_invalid command timeout encoding errors shell input_data environment w :
  valid_command_type command = false →
  execute_command command timeout encoding errors shell input_data environment w
  = (Return bad_argument_outcome, w).
Proof. intros Hv. unfold execute_command. by rewrite Hv. Qed.

(** The interpreter state after the call: unchanged, or the state in
    which [subprocess.run] was called. *)
Lemma execute_command_world command timeout encoding errors shell input_data environment
    w r w' :
  execute_command command timeout encoding errors shell input_data environment w = (r, w') →
  w' = w
  ∨ ∃ input,
      valid_command_type command = true
      ∧ prepare_input encoding input_data = Return input
      ∧ w' = {| store := store_after environment w;
                run_calls := run_calls w
                  ++ [params_of (prepare_command command shell).1
                        (prepare_command command shell).2 timeout input environment w] |}.
Proof.
  intros H. destruct (valid_command_type command) eqn:Hv.
  - rewrite execute_command_cases in H by done. simpl in H.
    destruct (prepare_input encoding input_data) as [input|e] eqn:Hin.
    + right. exists input. split; [done|]. split; [done|].
      destruct (subprocess_run _) as [completed|e].
      * destruct (completed_outcome _ _ _) as [d|e]; [by simplify_eq|].
        apply (f_equal snd) in H. by rewrite handlers_world in H.
      * apply (f_equal snd) in H. by rewrite handlers_world in H.
    + left. apply (f_equal snd) in H. by rewrite handlers_world in H.
  - left. rewrite execute_command_invalid in H by done. by simplify_eq.
Qed.

Lemma store_after_os_environ environment w :
  is_Some (store w !! os_environ) →
  store_after environment w !! os_environ = store w !! os_environ.
Proof.
  intros Hsome. destruct environment as [overrides|]; [|done]. simpl.
  apply lookup_insert_ne. intros Heq.
  apply (is_fresh (dom (store w))). rewrite Heq. by apply elem_of_dom.
Qed.

End Properties.

(** ** The clauses of the [try] statement *)


(** The timeout clause, lines 96-107, when both partial streams decode. *)
Lemma timeout_outcome {rt : Runtime} command timeout encoding errors e_stdout e_stderr msg
    stdout stderr w :
  safe_decode encoding errors e_stdout = Return stdout →
  safe_decode encoding errors e_stderr = Return stderr →
  handlers command timeout encoding errors (TimeoutExpired e_stdout e_stderr msg) w
  = (Return {[ "stdout" := PyStr stdout;
               "stderr" := PyStr (stderr +:+ LF +:+ "Command timed out after "
                                  +:+ pretty timeout +:+ " seconds");
               "returncode" := PyInt (-3);
               "timeout" := PyBool true ]}, w).
Proof.
  intros Hout Herr. unfold handlers. unfold_py.
  destruct e_stdout, e_stderr; simpl in *; simplify_eq; rewrite ?Hout, ?Herr; done.
Qed.

(** The ["timeout"] key is set by the timeout clause and by no other
    return statement. *)
Lemma timeout_key_only_on_timeout {rt : Runtime} command timeout encoding errors shell
    input_data environment w d w' :
  execute_command command timeout encoding errors shell input_data environment w
  = (Return d, w') →
  is_Some (d !! "timeout") →
  d !! "timeout" = Some (PyBool true)
  ∧ ∃ p e_stdout e_stderr msg,
      run_calls w' = run_calls w ++ [p]
      ∧ subprocess_run p = Raise (TimeoutExpired e_stdout e_stderr msg).
Proof.
  intros H Hkey. destruct (valid_command_type command) eqn:Hv.
  - rewrite execute_command_cases in H by done. simpl in H.
    destruct (prepare_input encoding input_data) as [input|e] eqn:Hin.
    + set (p := params_of _ _ _ _ _ _) in H.
      destruct (subprocess_run p) as [completed|e] eqn:Hrun.
      * destruct (completed_outcome encoding errors completed) as [d'|e] eqn:Hout.
        -- simplify_eq. unfold completed_outcome in Hout.
           repeat case_match; simplify_eq. by destruct Hkey.
        -- destruct (completed_outcome_raises _ _ _ _ Hout) as [c ->].
           rewrite handlers_codec_exn in H. simplify_eq. by destruct Hkey.
      * pose proof (handlers_world (prepare_command command shell).1 timeout encoding
                      errors e {| store := store_after environment w;
                                  run_calls := run_calls w ++ [p] |}) as Hw.
        rewrite H in Hw. simpl in Hw. subst w'.
        unfold handlers in H. unfold_py.
        destruct e; simpl in *; repeat case_match; simplify_eq/=;
          try (by destruct Hkey); (split; [done|]; eauto 10).
    + destruct (prepare_input_raises _ _ _ Hin) as [c ->].
      rewrite handlers_codec_exn in H. simplify_eq. by destruct Hkey.
  - rewrite execute_command_invalid in H by done. simplify_eq. by destruct Hkey.
Qed.

(** The not-found clause, lines 108-114, for the commands whose name can
    be taken: the first element of a list, the first word of a text. *)
Lemma not_found_outcome {rt : Runtime} command timeout encoding errors msg name w :
  cmd_name command = Return name →
  handlers command timeout encoding errors (FileNotFoundError msg) w
  = (Return {[ "stdout" := PyNone;
               "stderr" := PyStr ("Command not found: " +:+ format_value name +:+ LF
                                  +:+ "Error: " +:+ msg);
               "returncode" := PyInt (-4) ]}, w).
Proof. intros Hname. unfold handlers. unfold_py. by rewrite Hname. Qed.

Lemma permission_denied_outcome {rt : Runtime} command timeout encoding errors msg name w :
  cmd_name command = Return name →
  handlers command timeout encoding errors (PermissionError msg) w
  = (Return {[ "stdout" := PyNone;
               "stderr" := PyStr ("Permission denied for command: " +:+ format_value name
                                  +:+ LF +:+ "Error: " +:+ msg);
               "returncode" := PyInt (-5) ]}, w).
Proof. intros Hname. unfold handlers. unfold_py. by rewrite Hname. Qed.

(** What leaves the function as an exception: a decoding failure inside
    the [CalledProcessError] or timeout clause, a failed name extraction
    inside the not-found or permission clause, or an exception of the
    process layer that derives from [BaseException] only. *)
Lemma execute_command_raise_cases {rt : Runtime} command timeout encoding errors shell
    input_data environment w e w' :
  execute_command command timeout encoding errors shell input_data environment w
  = (Raise e, w') →
  ∃ p e0,
    run_calls w' = run_calls w ++ [p]
    ∧ subprocess_run p = Raise e0
    ∧ match e0 with
      | CalledProcessError _ _ _ _ | TimeoutExpired _ _ _ => ∃ c, e = codec_exn c
      | FileNotFoundError _ | PermissionError _ =>
          cmd_name (prepare_command command shell).1 = Raise e
      | SystemExit _ => e = e0
      | _ => False
      end.
Proof.
  intros H. destruct (valid_command_type command) eqn:Hv.
  - rewrite execute_command_cases in H by done. simpl in H.
    destruct (prepare_input encoding input_data) as [input|e'] eqn:Hin.
    + set (p := params_of _ _ _ _ _ _) in H.
      destruct (subprocess_run p) as [completed|e0] eqn:Hrun.
      * destruct (completed_outcome encoding errors completed) as [d'|e'] eqn:Hout;
          [done|].
        destruct (completed_outcome_raises _ _ _ _ Hout) as [c ->].
        by rewrite handlers_codec_exn in H.
      * pose proof (handlers_world (prepare_command command shell).1 timeout encoding
                      errors e0 {| store := store_after environment w;
                                   run_calls := run_calls w ++ [p] |}) as Hw.
        rewrite H in Hw. simpl in Hw. subst w'.
        exists p, e0. split; [done|]. split; [done|].
        unfold handlers in H. unfold_py.
        destruct e0; simpl in *; repeat case_match; simplify_eq/=;
          eauto using safe_decode_raises.
        all: repeat case_match; simplify_eq; eauto.
    + destruct (prepare_input_raises _ _ _ Hin) as [c ->].
      by rewrite handlers_codec_exn in H.
  - by rewrite execute_command_invalid in H.
Qed.

(** A call whose process completes returns an outcome. *)
Lemma completed_call_returns {rt : Runtime} command timeout encoding errors shell
    input_data environment w r w' p completed :
  execute_command command timeout encoding errors shell input_data environment w
  = (r, w') →
  run_calls w' = run_calls w ++ [p] →
  subprocess_run p = Return completed →
  ∃ d, r = Return d.
Proof.
  intros H Hcalls Hrun. destruct r as [d|e]; [eauto|].
  apply execute_command_raise_cases in H as (p' & e0 & Hcalls' & Hrun' & _).
  rewrite Hcalls' in Hcalls. apply app_singleton_inj in Hcalls as ->. congruence.
Qed.

(** When [subprocess.run] raises, the call is the handler applied to
    what it raised, in the state left by the [try] body. *)
Lemma raised_call_is_handled {rt : Runtime} command timeout encoding errors shell
    input_data environment w r w' p e :
  execute_command command timeout encoding errors shell input_data environment w
  = (r, w') →
  run_calls w' = run_calls w ++ [p] →
  subprocess_run p = Raise e →
  handlers (prepare_command command shell).1 timeout encoding errors e w' = (r, w').
Proof.
  intros H Hcalls Hrun. destruct (valid_command_type command) eqn:Hv.
  - pose proof H as Hw.
    apply execute_command_world in Hw as [->|(input & _ & Hin & ->)];
      [by apply app_singleton_neq in Hcalls|].
    simpl in Hcalls. apply app_singleton_inj in Hcalls as <-.
    rewrite execute_command_cases in H by done. simpl in H.
    by rewrite Hin, Hrun in H.
  - rewrite execute_command_invalid in H by done. simplify_eq.
    by apply app_singleton_neq in Hcalls.
Qed.

(** A timed-out call whose partial output decodes. *)
Lemma timed_out_call_outcome {rt : Runtime} command timeout encoding errors shell
    input_data environment w r w' p e_stdout e_stderr msg stdout stderr :
  execute_command command timeout encoding errors shell input_data environment w
  = (r, w') →
  run_calls w' = run_calls w ++ [p] →
  subprocess_run p = Raise (TimeoutExpired e_stdout e_stderr msg) →
  safe_decode encoding errors e_stdout = Return stdout →
  safe_decode encoding errors e_stderr = Return stderr →
  r = Return {[ "stdout" := PyStr stdout;
                "stderr" := PyStr (stderr +:+ LF +:+ "Command timed out after "
                                   +:+ pretty timeout +:+ " seconds");
                "returncode" := PyInt (-3);
                "timeout" := PyBool true ]}.
Proof.
  intros H Hcalls Hrun Hout Herr.
  pose proof (raised_call_is_handled _ _ _ _ _ _ _ _ _ _ _ _ H Hcalls Hrun) as Hh.
  rewrite (timeout_outcome _ _ _ _ _ _ _ _ _ _ Hout Herr) in Hh. by simplify_eq.
Qed.

(** A call whose executable is missing, for a list or text command with
    a first element or word. *)
Lemma not_found_call_outcome {rt : Runtime} command timeout encoding errors shell
    input_data environment w r w' p msg name :
  execute_command command timeout encoding errors shell input_data environment w
  = (r, w') →
  run_calls w' = run_calls w ++ [p] →
  subprocess_run p = Raise (FileNotFoundError msg) →
  cmd_name (prepare_command command shell).1 = Return name →
  r = Return {[ "stdout" := PyNone;
                "stderr" := PyStr ("Command not found: " +:+ format_value name +:+ LF
                                   +:+ "Error: " +:+ msg);
                "returncode" := PyInt (-4) ]}.
Proof.
  intros H Hcalls Hrun Hname.
  pose proof (raised_call_is_handled _ _ _ _ _ _ _ _ _ _ _ _ H Hcalls Hrun) as Hh.
  rewrite (not_found_outcome _ _ _ _ _ _ _ Hname) in Hh. by simplify_eq.
Qed.

(** ** The claims *)

(** C1 (the function never lets an exception reach its caller): fails on
    a tuple command whose program may not be executed.  The tuple passes
    validation, [subprocess.run] raises [PermissionError], and the handler
    evaluates [command.split()] on the tuple: [AttributeError] leaves the
    function. *)
Theorem tuple_command_permission_error_escapes :
  (sample_execute_command (PyTuple [PyStr "/etc/shadow"]) 30 "latin-1" "ignore" false
     PyNone None Sample.initial).1
  = Raise (AttributeError "'tuple' object has no attribute 'split'").
Proof. vm_compute. reflexivity. Qed.

(** C2, as amended: a command that is not a [str], [list] or [tuple]
    instance is rejected at once with return code -2, no standard output
    and the type-error message; the interpreter state, and with it the
    record of [subprocess.run] calls, is untouched.  The elements of a
    list or tuple are not inspected. *)
Theorem invalid_command_type_rejected {rt : Runtime} :
  ∀ command timeout encoding errors shell input_data environment w,
    valid_command_type command = false →
    execute_command command timeout encoding errors shell input_data environment w
    = (Return bad_argument_outcome, w)
    ∧ bad_argument_outcome !! "returncode" = Some (PyInt (-2))
    ∧ bad_argument_outcome !! "stdout" = Some PyNone
    ∧ bad_argument_outcome !! "stderr"
      = Some (PyStr "Error: command must be a string or list of strings").
Proof.
  intros * Hv. split; [by apply execute_command_invalid|done].
Qed.

Lemma invalid_command_type_rejected_witness :
  let w := Sample.initial in
  sample_execute_command (PyInt 5) 30 "latin-1" "ignore" false PyNone None w
  = (Return bad_argument_outcome, w)
  ∧ bad_argument_outcome !! "returncode" = Some (PyInt (-2))
  ∧ bad_argument_outcome !! "stdout" = Some PyNone
  ∧ bad_argument_outcome !! "stderr"
    = Some (PyStr "Error: command must be a string or list of strings").
Proof.
  exact (invalid_command_type_rejected (rt := Sample.runtime) (PyInt 5) 30 "latin-1"
           "ignore" false PyNone None Sample.initial eq_refl).
Defined.

(** C2 as stated fails on a list that holds something else than texts:
    [[1]] is no sequence of strings, yet it passes validation,
    [subprocess.run] is called and its [TypeError] is reported with the
    catch-all code -1. *)
Lemma list_of_int_passes_validation :
  let r := sample_execute_command (PyList [PyInt 1]) 30 "latin-1" "ignore" false
             PyNone None Sample.initial in
  str_or_sequence_of_str (PyList [PyInt 1]) = false
  ∧ (∃ d, r.1 = Return d ∧ d !! "returncode" = Some (PyInt (-1)))
  ∧ length (run_calls r.2) = 1%nat.
Proof.
  split; [reflexivity|]. split; [|reflexivity].
  eexists. split; [reflexivity|]. reflexivity.
Qed.




(** C4: a text command with the shell flag off is first tokenized by
    [shlex.split]; the call then behaves as the call on the argument
    vector.  When the tokenizer raises, the call behaves as the shell-mode
    call on the same text.  Accordingly the process layer receives the
    tokens with [shell=False], or the unmodified text with [shell=True]. *)
Theorem string_command_tokenized_or_shell {rt : Runtime} :
  ∀ (s : string) timeout encoding errors input_data environment w,
    execute_command (PyStr s) timeout encoding errors false input_data environment w
    = match shlex_split s with
      | Some tokens =>
          execute_command (PyList (PyStr <$> tokens)) timeout encoding errors false
            input_data environment w
      | None =>
          execute_command (PyStr s) timeout encoding errors true input_data environment w
      end
    ∧ ∀ r w' p,
        execute_command (PyStr s) timeout encoding errors false input_data environment w
        = (r, w') →
        run_calls w' = run_calls w ++ [p] →
        match shlex_split s with
        | Some tokens => p_args p = PyList (PyStr <$> tokens) ∧ p_shell p = false
        | None => p_args p = PyStr s ∧ p_shell p = true
        end.
Proof.
  intros. split.
  - unfold execute_command, prepare_command. simpl. by destruct (shlex_split s).
  - intros r w' p H Hcalls.
    apply execute_command_world in H as [->|(input & _ & _ & ->)].
    + by apply app_singleton_neq in Hcalls.
    + simpl in Hcalls. apply app_singleton_inj in Hcalls as <-.
      unfold prepare_command. simpl. by destruct (shlex_split s).
Qed.

Lemma string_command_tokenized_or_shell_witness :
  let s := "echo 'unterminated" in
  ∃ r w' p,
    sample_execute_command (PyStr s) 30 "latin-1" "ignore" false PyNone None Sample.initial
    = (r, w')
    ∧ run_calls w' = run_calls Sample.initial ++ [p]
    ∧ p_args p = PyStr s ∧ p_shell p = true.
Proof.
  intros s.
  pose proof (proj2 (string_command_tokenized_or_shell (rt := Sample.runtime) s 30
                       "latin-1" "ignore" PyNone None Sample.initial)) as H.
  eexists _, _, _. split; [reflexivity|].
  split; [reflexivity|].
  eapply (H _ _ _); reflexivity.
Defined.

(** C5 (a timed-out call returns code -3 with the partial output): fails
    when the partial output cannot be decoded.  The process is killed
    after writing a byte outside ASCII, the ["idna"] codec raises
    [UnicodeDecodeError] under the [strict] policy and [UnicodeError] under
    [replace]; [safe_decode] is called from the handler, so the second
    exception leaves the function. *)
Theorem timeout_partial_output_decode_escapes :
  (sample_execute_command
     (PyList [PyStr "sh"; PyStr "-c"; PyStr "printf '\377'; sleep infinity"]) 1
     "idna" "strict" false PyNone None Sample.initial).1
  = Raise (UnicodeError "Unsupported error handling replace").
Proof. vm_compute. reflexivity. Qed.

(** C6 (a missing executable is reported with code -4 and its name):
    fails on a tuple command.  [subprocess.run] raises [FileNotFoundError];
    the name is taken by [command[0]] from a list only, a tuple goes
    through [command.split()] and [AttributeError] leaves the function. *)
Theorem tuple_command_not_found_escapes :
  (sample_execute_command (PyTuple [PyStr "no_such_program"; PyStr "--version"]) 30
     "latin-1" "ignore" false PyNone None Sample.initial).1
  = Raise (AttributeError "'tuple' object has no attribute 'split'").
Proof. vm_compute. reflexivity. Qed.

(** C7, as amended: an absent stream decodes to the empty text.  A byte
    stream is decoded with the configured encoding and policy; if that
    raises [UnicodeDecodeError] it is decoded again with the [replace]
    policy, whose result is returned when there is one; if it raises any
    other exception the text form of the raw bytes is returned, the
    [replace] policy not being tried. *)
Theorem safe_decode_cases {rt : Runtime} :
  ∀ (enc err : string),
    safe_decode enc err None = Return ""
    ∧ ∀ b : bytes,
        match bytes_decode b enc err with
        | Done s => safe_decode enc err (Some b) = Return s
        | Failed (DecodeError _) =>
            ∀ s, bytes_decode b enc "replace" = Done s →
                 safe_decode enc err (Some b) = Return s
        | Failed (CodecError _ _) =>
            safe_decode enc err (Some b) = Return (builtin_str (PyBytes b))
        end.
Proof.
  intros. split; [done|]. intros b. unfold safe_decode.
  destruct (bytes_decode b enc err) as [s|[msg|name msg]]; [done| |done].
  by intros s ->.
Qed.

Lemma safe_decode_cases_witness :
  bytes_decode (Runtime := Sample.runtime) [Byte.xff] "ascii" "strict"
  = Failed (DecodeError "'ascii' codec can't decode byte: ordinal not in range(128)")
  ∧ bytes_decode (Runtime := Sample.runtime) [Byte.xff] "ascii" "replace"
    = Done Sample.replacement
  ∧ safe_decode (rt := Sample.runtime) "ascii" "strict" (Some [Byte.xff])
    = Return Sample.replacement.
Proof.
  split; [reflexivity|]. split; [reflexivity|].
  exact (proj2 (safe_decode_cases (rt := Sample.runtime) "ascii" "strict") [Byte.xff]
           Sample.replacement eq_refl).
Defined.

(** C7 as stated fails twice.  Under ["idna"] the [strict] decode raises
    [UnicodeDecodeError] and the [replace] decode raises in turn: the
    second exception is not caught, the step is not total.  Under
    ["ascii"] with an unregistered handler the first decode raises
    [LookupError]: the raw bytes are rendered although the [replace] decode
    would have succeeded. *)
Lemma safe_decode_differs_from_chain :
  safe_decode (rt := Sample.runtime) "idna" "strict" (Some [Byte.xff])
  = Raise (UnicodeError "Unsupported error handling replace")
  ∧ decode_chain (rt := Sample.runtime) "idna" "strict" (Some [Byte.xff]) = "b'\xff'"
  ∧ safe_decode (rt := Sample.runtime) "ascii" "bogus" (Some [Byte.xff]) = Return "b'\xff'"
  ∧ decode_chain (rt := Sample.runtime) "ascii" "bogus" (Some [Byte.xff])
    = Sample.replacement
  ∧ Sample.replacement ≠ "b'\xff'".
Proof. repeat split; try (reflexivity). discriminate. Qed.

(** C8: when overrides are given, the process layer receives the
    contents of [os.environ] overlaid with them, held in a dictionary of
    its own; without overrides no ["env"] is passed and the child inherits
    the environment.  In both cases [os.environ] holds after the call what
    it held before. *)
Theorem environment_overlay_isolated {rt : Runtime} :
  ∀ command timeout encoding errors shell input_data environment w r w',
    is_Some (store w !! os_environ) →
    execute_command command timeout encoding errors shell input_data environment w
    = (r, w') →
    store w' !! os_environ = store w !! os_environ
    ∧ ∀ p, run_calls w' = run_calls w ++ [p] →
        p_env p = match environment with
                  | Some overrides => Some (overrides ∪ default ∅ (store w !! os_environ))
                  | None => None
                  end.
Proof.
  intros * Hsome H.
  apply execute_command_world in H as [->|(input & _ & _ & ->)].
  - split; [done|]. intros p Hcalls. by apply app_singleton_neq in Hcalls.
  - simpl. split; [by apply store_after_os_environ|].
    intros p Hcalls. by apply app_singleton_inj in Hcalls as <-.
Qed.

Lemma environment_overlay_isolated_witness :
  let w := Sample.initial in
  let overrides : gmap string string := {[ "LANG" := "fr_FR"; "DEBUG" := "1" ]} in
  ∃ r w' p,
    is_Some (store w !! os_environ)
    ∧ sample_execute_command (PyStr "echo hello") 30 "latin-1" "ignore" false PyNone
        (Some overrides) w = (r, w')
    ∧ run_calls w' = run_calls w ++ [p]
    ∧ store w' !! os_environ = store w !! os_environ
    ∧ p_env p = Some (overrides ∪ default ∅ (store w !! os_environ))
    ∧ p_env p = Some {[ "HOME" := "/root"; "LANG" := "fr_FR"; "DEBUG" := "1" ]}.
Proof.
  intros w overrides.
  assert (Hsome : is_Some (store w !! os_environ)) by (by eexists).
  pose proof (environment_overlay_isolated (rt := Sample.runtime) (PyStr "echo hello") 30
                "latin-1" "ignore" false PyNone (Some overrides) w) as H.
  eexists _, _, _. split; [exact Hsome|].
  split; [reflexivity|].
  split; [reflexivity|].
  edestruct H as [Hstore Henv]; [exact Hsome|reflexivity|].
  split; [exact Hstore|]. split; [apply Henv; reflexivity|].
  reflexivity.
Defined.

(** C9, as amended: when the command passes validation and the text
    given as input cannot be encoded (the encoder raises, an unknown
    encoding name included), the call returns the catch-all outcome with
    code -1 and no standard output, and the interpreter state is as
    before: [subprocess.run] has not been called. *)
Theorem input_encoding_failure_is_unexpected {rt : Runtime} :
  ∀ command timeout encoding errors shell (text : string) environment w c,
    valid_command_type command = true →
    str_encode text encoding = Failed c →
    execute_command command timeout encoding errors shell (PyStr text) environment w
    = (Return {[ "stdout" := PyNone;
                 "stderr" := PyStr ("Unexpected error: " +:+ type_name (codec_exn c) +:+ LF
                                    +:+ "Details: " +:+ exn_str (codec_exn c));
                 "returncode" := PyInt (-1) ]}, w).
Proof.
  intros * Hv Henc. rewrite execute_command_cases by done. simpl.
  rewrite Henc. apply handlers_codec_exn.
Qed.

Lemma input_encoding_failure_is_unexpected_witness :
  let w := Sample.initial in
  valid_command_type (PyStr "cat") = true
  ∧ str_encode (Runtime := Sample.runtime) "data" "utf-9"
    = Failed (CodecError "LookupError" "unknown encoding: utf-9")
  ∧ sample_execute_command (PyStr "cat") 30 "utf-9" "ignore" false (PyStr "data") None w
    = (Return {[ "stdout" := PyNone;
                 "stderr" := PyStr ("Unexpected error: LookupError" +:+ LF
                                    +:+ "Details: unknown encoding: utf-9");
                 "returncode" := PyInt (-1) ]}, w).
Proof.
  split; [reflexivity|]. split; [reflexivity|].
  exact (input_encoding_failure_is_unexpected (rt := Sample.runtime) (PyStr "cat") 30
           "utf-9" "ignore" false "data" None Sample.initial
           (CodecError "LookupError" "unknown encoding: utf-9") eq_refl eq_refl).
Defined.

(** C9 as stated fails when the command itself is rejected: validation
    comes first, the encoder is never reached and the code is -2. *)
Lemma invalid_command_precedes_input_encoding :
  let w := Sample.initial in
  str_encode (Runtime := Sample.runtime) "data" "utf-9"
  = Failed (CodecError "LookupError" "unknown encoding: utf-9")
  ∧ ∃ d,
      sample_execute_command (PyInt 5) 30 "utf-9" "ignore" false (PyStr "data") None w
      = (Return d, w)
      ∧ d !! "returncode" = Some (PyInt (-2)).
Proof.
  split; [reflexivity|]. eexists. split; [reflexivity|].
  reflexivity.
Qed.

(** C10, as amended: for a tuple command, when [subprocess.run] raises
    [FileNotFoundError] or [PermissionError], the call raises
    [AttributeError] and returns no outcome.  Of the commands that pass
    validation, the name can be taken from a list with a first element,
    which is the name, and from a text with a first whitespace-delimited
    word, which is the name, and from no other; the empty list and a text
    without a word raise [IndexError]. *)
Theorem tuple_command_name_extraction_raises {rt : Runtime} :
  (∀ (l : list pyobj) timeout encoding errors shell input_data environment w r w' p e,
     execute_command (PyTuple l) timeout encoding errors shell input_data environment w
     = (r, w') →
     run_calls w' = run_calls w ++ [p] →
     subprocess_run p = Raise e →
     (∃ msg, e = FileNotFoundError msg) ∨ (∃ msg, e = PermissionError msg) →
     r = Raise (AttributeError "'tuple' object has no attribute 'split'"))
  ∧ (∀ command name,
       valid_command_type command = true →
       cmd_name command = Return name ↔
       (∃ l, command = PyList (name :: l))
       ∨ (∃ s word words,
            command = PyStr s ∧ str_split s = word :: words ∧ name = PyStr word))
  ∧ cmd_name (PyList []) = Raise (IndexError "list index out of range")
  ∧ ∀ s, str_split s = [] →
         cmd_name (PyStr s) = Raise (IndexError "list index out of range").
Proof.
  split; [|split; [|split]].
  - intros * H Hcalls Hrun He.
    apply (raised_call_is_handled _ _ _ _ _ _ _ _ _ _ _ _ H Hcalls) in Hrun.
    rewrite prepare_command_tuple in Hrun.
    destruct He as [[msg ->]|[msg ->]]; unfold handlers in Hrun; unfold_py;
      simpl in Hrun; by simplify_eq.
  - intros command name Hv. split.
    + intros H. destruct command as [| | |s| |l|l]; simpl in H, Hv; try done.
      * right. destruct (str_split s) as [|word words] eqn:Hs; [done|].
        simplify_eq. by exists s, word, words.
      * left. destruct l as [|x l]; [done|]. simplify_eq. by exists l.
    + intros [[l ->]|(s & word & words & -> & Hs & ->)]; simpl; [done|].
      by rewrite Hs.
  - done.
  - intros s Hs. simpl. by rewrite Hs.
Qed.

Lemma tuple_command_name_extraction_raises_witness :
  let command := PyTuple [PyStr "no_such_program"] in
  ∃ r w' p msg,
    sample_execute_command command 30 "latin-1" "ignore" false PyNone None Sample.initial
    = (r, w')
    ∧ run_calls w' = run_calls Sample.initial ++ [p]
    ∧ Sample.run_process p = Raise (FileNotFoundError msg)
    ∧ r = Raise (AttributeError "'tuple' object has no attribute 'split'").
Proof.
  intros command.
  pose proof (proj1 (tuple_command_name_extraction_raises (rt := Sample.runtime))
                [PyStr "no_such_program"] 30 "latin-1" "ignore" false PyNone None
                Sample.initial) as H.
  eexists _, _, _, _. split; [reflexivity|].
  split; [reflexivity|].
  split; [reflexivity|].
  eapply H; [reflexivity|reflexivity|reflexivity|].
  left. eexists. reflexivity.
Defined.

(** C10 as stated fails in its last clause: the name extraction is not
    total on lists and texts.  The empty list has no first element and a
    blank text no first word; both raise [IndexError]. *)
Lemma name_extraction_partial_on_list_and_text :
  valid_command_type (PyList []) = true
  ∧ cmd_name (PyList []) = Raise (IndexError "list index out of range")
  ∧ valid_command_type (PyStr "   ") = true
  ∧ cmd_name (PyStr "   ") = Raise (IndexError "list index out of range").
Proof. repeat split. Qed.


(** ** Further properties of a call *)

(** X1: a call reaches [subprocess.run] exactly when the command passes
    validation and the input, if it is a text, can be encoded; it then
    calls it once.  Earlier calls stay on record. *)
Theorem run_called_at_most_once {rt : Runtime} :
  ∀ command timeout encoding errors shell input_data environment w,
    let w' := (execute_command command timeout encoding errors shell input_data
                 environment w).2 in
    match valid_command_type command, prepare_input encoding input_data with
    | true, Return _ => ∃ p, run_calls w' = run_calls w ++ [p]
    | _, _ => run_calls w' = run_calls w
    end.
Proof.
  intros. subst w'.
  destruct (execute_command command timeout encoding errors shell input_data
              environment w) as [r w'] eqn:H. simpl.
  destruct (valid_command_type command) eqn:Hv.
  - rewrite execute_command_cases in H by done. simpl in H.
    destruct (prepare_input encoding input_data) as [input|e] eqn:Hin.
    + eexists.
      destruct (subprocess_run _) as [completed|e].
      * destruct (completed_outcome _ _ _) as [d|e]; [by simplify_eq|].
        apply (f_equal snd) in H. rewrite handlers_world in H. simpl in H. by subst w'.
      * apply (f_equal snd) in H. rewrite handlers_world in H. simpl in H. by subst w'.
    + apply (f_equal snd) in H. rewrite handlers_world in H. simpl in H. by subst w'.
  - rewrite execute_command_invalid in H by done. by simplify_eq.
Qed.

(** X2: what the process layer receives besides the command.  The
    timeout is the caller's and the streams are captured as bytes
    ([text=False]).  No ["input"] is passed for [None]; a text is passed as
    the bytes of its encoding; anything else, [bytes] in particular, is
    passed as it is. *)
Theorem run_receives_input {rt : Runtime} :
  ∀ command timeout encoding errors shell input_data environment w p,
    run_calls (execute_command command timeout encoding errors shell input_data
                 environment w).2 = run_calls w ++ [p] →
    p_timeout p = timeout
    ∧ p_text p = false
    ∧ match input_data with
      | PyNone => p_input p = None
      | PyStr text => ∃ b, str_encode text encoding = Done b ∧ p_input p = Some (PyBytes b)
      | _ => p_input p = Some input_data
      end.
Proof.
  intros * Hcalls.
  destruct (execute_command command timeout encoding errors shell input_data
              environment w) as [r w'] eqn:H. simpl in Hcalls.
  apply execute_command_world in H as [->|(input & _ & Hin & ->)];
    [by apply app_singleton_neq in Hcalls|].
  simpl in Hcalls. apply app_singleton_inj in Hcalls as <-. simpl.
  split; [done|]. split; [done|].
  unfold prepare_input in Hin.
  destruct input_data; simplify_eq; try done.
  destruct (str_encode s encoding) as [b|c] eqn:Henc; simplify_eq. eauto.
Qed.

Lemma run_receives_input_witness :
  ∃ p,
    run_calls (sample_execute_command (PyStr "cat") 5 "latin-1" "ignore" false
                 (PyStr "cé") None Sample.initial).2
    = run_calls Sample.initial ++ [p]
    ∧ p_timeout p = 5
    ∧ p_text p = false
    ∧ ∃ b, Sample.encode "cé" "latin-1" = Done b ∧ p_input p = Some (PyBytes b).
Proof.
  eexists. split; [reflexivity|].
  apply (run_receives_input (rt := Sample.runtime) (PyStr "cat") 5 "latin-1" "ignore"
           false (PyStr "cé") None Sample.initial).
  reflexivity.
Defined.

(** X3: a list or tuple command, and a text command in shell mode, reach
    the process layer unchanged, with the caller's shell flag; the
    tokenizer plays no part. *)
Theorem untokenized_command_passed_unchanged {rt : Runtime} :
  ∀ command timeout encoding errors shell input_data environment w p,
    is_str command = false ∨ shell = true →
    run_calls (execute_command command timeout encoding errors shell input_data
                 environment w).2 = run_calls w ++ [p] →
    p_args p = command ∧ p_shell p = shell.
Proof.
  intros * Hcmd Hcalls.
  destruct (execute_command command timeout encoding errors shell input_data
              environment w) as [r w'] eqn:H. simpl in Hcalls.
  apply execute_command_world in H as [->|(input & _ & Hin & ->)];
    [by apply app_singleton_neq in Hcalls|].
  simpl in Hcalls. apply app_singleton_inj in Hcalls as <-. simpl.
  unfold prepare_command.
  destruct Hcmd as [Hcmd| ->]; destruct command; simpl in *; done.
Qed.

Lemma untokenized_command_passed_unchanged_witness :
  let command := PyStr "echo $HOME | wc -c" in
  ∃ p,
    run_calls (sample_execute_command command 30 "latin-1" "ignore" true PyNone None
                 Sample.initial).2
    = run_calls Sample.initial ++ [p]
    ∧ p_args p = command ∧ p_shell p = true.
Proof.
  intros command. eexists. split; [reflexivity|].
  apply (untokenized_command_passed_unchanged (rt := Sample.runtime) command 30 "latin-1"
           "ignore" true PyNone None Sample.initial); [by right|].
  reflexivity.
Defined.

(** The dictionaries the [return] statements build. *)
Lemma returned_outcome_forms {rt : Runtime} command timeout encoding errors shell
    input_data environment w d :
  (execute_command command timeout encoding errors shell input_data environment w).1
  = Return d →
  (∃ stdout stderr rc,
     d = {[ "stdout" := PyStr stdout; "stderr" := PyStr stderr;
            "returncode" := PyInt rc ]})
  ∨ (∃ stdout stderr,
       d = {[ "stdout" := PyStr stdout; "stderr" := PyStr stderr;
              "returncode" := PyInt (-3); "timeout" := PyBool true ]})
  ∨ (∃ stderr rc,
       rc ∈ [-1; -2; -4; -5; -6]
       ∧ d = {[ "stdout" := PyNone; "stderr" := PyStr stderr; "returncode" := PyInt rc ]}).
Proof.
  intros H.
  destruct (execute_command command timeout encoding errors shell input_data
              environment w) as [r w'] eqn:Hexec. simpl in H. subst r.
  assert (Hcatch : ∀ c w0,
    handlers (prepare_command command shell).1 timeout encoding errors (codec_exn c) w0
    = (Return d, w') →
    ∃ stderr rc, rc ∈ [-1; -2; -4; -5; -6]
      ∧ d = {[ "stdout" := PyNone; "stderr" := PyStr stderr; "returncode" := PyInt rc ]}).
  { intros c w0 Hc. rewrite handlers_codec_exn in Hc. simplify_eq.
    eexists _, (-1). split; [by repeat constructor|done]. }
  destruct (valid_command_type command) eqn:Hv.
  - rewrite execute_command_cases in Hexec by done. simpl in Hexec.
    destruct (prepare_input encoding input_data) as [input|e] eqn:Hin.
    + destruct (subprocess_run _) as [completed|e] eqn:Hrun.
      * destruct (completed_outcome encoding errors completed) as [d'|e] eqn:Hout.
        -- simplify_eq. left. unfold completed_outcome in Hout.
           repeat case_match; simplify_eq. eauto.
        -- destruct (completed_outcome_raises _ _ _ _ Hout) as [c ->]. eauto.
      * unfold handlers in Hexec. unfold_py.
        destruct e as [rc out err msg|out err msg|msg|msg| |msg|msg|name msg];
          simpl in Hexec.
        -- left. repeat case_match; simplify_eq/=; eexists _, _, _; reflexivity.
        -- right. left. repeat case_match; simplify_eq/=; eexists _, _; reflexivity.
        -- right. right. repeat case_match; simplify_eq/=.
           eexists _, (-4). split; [by repeat constructor|reflexivity].
        -- right. right. repeat case_match; simplify_eq/=.
           eexists _, (-5). split; [by repeat constructor|reflexivity].
        -- right. right. simplify_eq/=.
           eexists _, (-6). split; [by repeat constructor|reflexivity].
        -- done.
        -- right. right. simplify_eq/=.
           eexists _, (-1). split; [by repeat constructor|reflexivity].
        -- right. right. simplify_eq/=.
           eexists _, (-1). split; [by repeat constructor|reflexivity].
    + destruct (prepare_input_raises _ _ _ Hin) as [c ->]. eauto.
  - rewrite execute_command_invalid in Hexec by done. simplify_eq.
    right. right. eexists _, (-2). split; [by repeat constructor|done].
Qed.

(** X4: every outcome has the keys ["stdout"], ["stderr"] and
    ["returncode"], and ["timeout"] besides or no other; the return code is
    an integer, the error text is always a text, never null, and the
    output is a text or null. *)
Theorem outcome_shape {rt : Runtime} :
  ∀ command timeout encoding errors shell input_data environment w d,
    (execute_command command timeout encoding errors shell input_data environment w).1
    = Return d →
    (dom d = {[ "stdout"; "stderr"; "returncode" ]}
     ∨ dom d = {[ "stdout"; "stderr"; "returncode"; "timeout" ]})
    ∧ (∃ rc, d !! "returncode" = Some (PyInt rc))
    ∧ (∃ stderr, d !! "stderr" = Some (PyStr stderr))
    ∧ (d !! "stdout" = Some PyNone ∨ ∃ stdout, d !! "stdout" = Some (PyStr stdout)).
Proof.
  intros * H.
  apply returned_outcome_forms in H
    as [(so & se & rc & ->)|[(so & se & ->)|(se & rc & _ & ->)]].
  - split; [left; reflexivity|]. repeat split; eauto.
  - split; [right; reflexivity|]. repeat split; eauto.
  - split; [left; reflexivity|]. repeat split; eauto.
Qed.

Lemma outcome_shape_witness :
  ∃ d,
    (sample_execute_command (PyStr "sleep infinity") 2 "latin-1" "ignore" false PyNone
       None Sample.initial).1 = Return d
    ∧ (dom d = {[ "stdout"; "stderr"; "returncode" ]}
       ∨ dom d = {[ "stdout"; "stderr"; "returncode"; "timeout" ]})
    ∧ (∃ rc, d !! "returncode" = Some (PyInt rc))
    ∧ (∃ stderr, d !! "stderr" = Some (PyStr stderr))
    ∧ (d !! "stdout" = Some PyNone ∨ ∃ stdout, d !! "stdout" = Some (PyStr stdout)).
Proof.
  eexists. split; [reflexivity|].
  apply (outcome_shape (rt := Sample.runtime) (PyStr "sleep infinity") 2 "latin-1"
           "ignore" false PyNone None Sample.initial).
  reflexivity.
Defined.



(** When [subprocess.run] returns, the call is the outcome of the
    completed process, or the catch-all handler applied to what decoding
    its output raised. *)
Lemma completed_call_is_decoded {rt : Runtime} command timeout encoding errors shell
    input_data environment w p completed :
  let r := execute_command command timeout encoding errors shell input_data environment w in
  run_calls r.2 = run_calls w ++ [p] →
  subprocess_run p = Return completed →
  r.1 = match completed_outcome encoding errors completed with
        | Return d => Return d
        | Raise e => (handlers (prepare_command command shell).1 timeout encoding
                        errors e r.2).1
        end.
Proof.
  intros r Hcalls Hrun. subst r.
  destruct (execute_command command timeout encoding errors shell input_data
              environment w) as [r w'] eqn:H. simpl in *.
  pose proof H as Hw.
  apply execute_command_world in Hw as [->|(input & Hv & Hin & ->)];
    [by apply app_singleton_neq in Hcalls|].
  simpl in Hcalls. apply app_singleton_inj in Hcalls as <-.
  rewrite execute_command_cases in H by done. simpl in H.
  rewrite Hin, Hrun in H.
  destruct (completed_outcome encoding errors completed); [by simplify_eq|].
  by rewrite H.
Qed.

(** X6: when the process completes and both streams decode, the
    outcome carries the decoded streams and the exit status as reported; a
    status other than zero is no error. *)
Theorem completed_call_outcome {rt : Runtime} :
  ∀ command timeout encoding errors shell input_data environment w p completed
    stdout stderr,
    let r := execute_command command timeout encoding errors shell input_data
               environment w in
    run_calls r.2 = run_calls w ++ [p] →
    subprocess_run p = Return completed →
    safe_decode encoding errors (cp_stdout completed) = Return stdout →
    safe_decode encoding errors (cp_stderr completed) = Return stderr →
    r.1 = Return {[ "stdout" := PyStr stdout;
                    "stderr" := PyStr stderr;
                    "returncode" := PyInt (cp_returncode completed) ]}.
Proof.
  intros * Hcalls Hrun Hout Herr. subst r.
  rewrite (completed_call_is_decoded _ _ _ _ _ _ _ _ _ _ Hcalls Hrun).
  unfold completed_outcome. by rewrite Hout, Herr.
Qed.

Lemma completed_call_outcome_witness :
  let r := sample_execute_command (PyStr "false") 30 "latin-1" "ignore" false PyNone None
             Sample.initial in
  ∃ p completed,
    run_calls r.2 = run_calls Sample.initial ++ [p]
    ∧ Sample.run_process p = Return completed
    ∧ cp_returncode completed = 1
    ∧ r.1 = Return {[ "stdout" := PyStr ""; "stderr" := PyStr "";
                      "returncode" := PyInt (cp_returncode completed) ]}.
Proof.
  intros r. eexists _, _. split; [reflexivity|].
  split; [reflexivity|]. split; [reflexivity|].
  eapply (completed_call_outcome (rt := Sample.runtime) (PyStr "false") 30 "latin-1"
            "ignore" false PyNone None Sample.initial); reflexivity.
Defined.

(** X7: when the process completes but its output cannot be decoded
    ([safe_decode] raises on either stream), the call returns the
    catch-all outcome: code -1, no output, and the exit status of the
    process is not reported. *)
Theorem undecodable_output_is_unexpected {rt : Runtime} :
  ∀ command timeout encoding errors shell input_data environment w p completed e,
    let r := execute_command command timeout encoding errors shell input_data
               environment w in
    run_calls r.2 = run_calls w ++ [p] →
    subprocess_run p = Return completed →
    safe_decode encoding errors (cp_stdout completed) = Raise e
    ∨ (∃ stdout, safe_decode encoding errors (cp_stdout completed) = Return stdout)
      ∧ safe_decode encoding errors (cp_stderr completed) = Raise e →
    r.1 = Return {[ "stdout" := PyNone;
                    "stderr" := PyStr ("Unexpected error: " +:+ type_name e +:+ LF
                                       +:+ "Details: " +:+ exn_str e);
                    "returncode" := PyInt (-1) ]}.
Proof.
  intros * Hcalls Hrun Hdec. subst r.
  rewrite (completed_call_is_decoded _ _ _ _ _ _ _ _ _ _ Hcalls Hrun).
  assert (completed_outcome encoding errors completed = Raise e) as ->.
  { unfold completed_outcome. destruct Hdec as [->|[[so ->] ->]]; done. }
  assert (∃ c, e = codec_exn c) as [c ->].
  { destruct Hdec as [H|[_ H]]; eauto using safe_decode_raises. }
  by rewrite handlers_codec_exn.
Qed.

Lemma undecodable_output_is_unexpected_witness :
  let command := PyList [PyStr "echo"; PyStr "é"] in
  let r := sample_execute_command command 30 "idna" "strict" false PyNone None
             Sample.initial in
  ∃ p completed,
    run_calls r.2 = run_calls Sample.initial ++ [p]
    ∧ Sample.run_process p = Return completed
    ∧ cp_returncode completed = 0
    ∧ r.1 = Return {[ "stdout" := PyNone;
                      "stderr" := PyStr ("Unexpected error: UnicodeError" +:+ LF
                                         +:+ "Details: Unsupported error handling replace");
                      "returncode" := PyInt (-1) ]}.
Proof.
  intros command r. eexists _, _. split; [reflexivity|].
  split; [reflexivity|]. split; [reflexivity|].
  eapply (undecodable_output_is_unexpected (rt := Sample.runtime) command 30 "idna"
            "strict" false PyNone None Sample.initial _ _
            (UnicodeError "Unsupported error handling replace"));
    [reflexivity|reflexivity|].
  left. reflexivity.
Defined.

(** [raised_call_is_handled] on the pair a call evaluates to. *)
Lemma raised_call_result {rt : Runtime} command timeout encoding errors shell input_data
    environment w p e :
  let r := execute_command command timeout encoding errors shell input_data environment w in
  run_calls r.2 = run_calls w ++ [p] →
  subprocess_run p = Raise e →
  r.1 = (handlers (prepare_command command shell).1 timeout encoding errors e r.2).1.
Proof.
  intros r Hcalls Hrun. subst r.
  destruct (execute_command command timeout encoding errors shell input_data
              environment w) as [r w'] eqn:H. simpl in *.
  by rewrite (raised_call_is_handled _ _ _ _ _ _ _ _ _ _ _ _ H Hcalls Hrun).
Qed.

(** X8: when the process layer raises [CalledProcessError], the outcome
    carries the exit status and the decoded streams of the exception; if
    the exception has no error stream, the error text is the text of the
    exception. *)
Theorem called_process_error_outcome {rt : Runtime} :
  ∀ command timeout encoding errors shell input_data environment w p
    returncode e_stdout e_stderr msg stdout stderr,
    let r := execute_command command timeout encoding errors shell input_data
               environment w in
    run_calls r.2 = run_calls w ++ [p] →
    subprocess_run p = Raise (CalledProcessError returncode e_stdout e_stderr msg) →
    safe_decode encoding errors e_stdout = Return stdout →
    match e_stderr with
    | Some _ => safe_decode encoding errors e_stderr = Return stderr
    | None => stderr = msg
    end →
    r.1 = Return {[ "stdout" := PyStr stdout;
                    "stderr" := PyStr stderr;
                    "returncode" := PyInt returncode ]}.
Proof.
  intros * Hcalls Hrun Hout Herr. subst r.
  rewrite (raised_call_result _ _ _ _ _ _ _ _ _ _ Hcalls Hrun).
  unfold handlers. unfold_py. rewrite Hout.
  destruct e_stderr; [rewrite Herr|subst stderr]; done.
Qed.

Lemma called_process_error_outcome_witness :
  let r := @execute_command checking_runtime (PyStr "false") 30 "latin-1" "ignore" false
             PyNone None Sample.initial in
  let msg := "Command '['false']' returned non-zero exit status 1." in
  ∃ p,
    run_calls r.2 = run_calls Sample.initial ++ [p]
    ∧ subprocess_run (Runtime := checking_runtime) p
      = Raise (CalledProcessError 1 (Some []) None msg)
    ∧ r.1 = Return {[ "stdout" := PyStr ""; "stderr" := PyStr msg;
                      "returncode" := PyInt 1 ]}.
Proof.
  intros r msg. eexists. split; [reflexivity|].
  split; [reflexivity|].
  eapply (called_process_error_outcome (rt := checking_runtime) (PyStr "false") 30
            "latin-1" "ignore" false PyNone None Sample.initial _ 1 (Some []) None msg);
    reflexivity.
Defined.

(** X9: an interrupt and every exception deriving from [Exception]
    without a clause of its own always give an outcome, whatever the
    command and the codec: code -6 with the fixed text, or code -1 with the
    class name and the text of the exception. *)
Theorem interrupt_and_unexpected_outcome {rt : Runtime} :
  ∀ command timeout encoding errors shell input_data environment w p e,
    let r := execute_command command timeout encoding errors shell input_data
               environment w in
    run_calls r.2 = run_calls w ++ [p] →
    subprocess_run p = Raise e →
    (e = KeyboardInterrupt →
     r.1 = Return {[ "stdout" := PyNone;
                     "stderr" := PyStr "Command execution interrupted by user";
                     "returncode" := PyInt (-6) ]})
    ∧ (reaches_last_clause e = true →
       r.1 = Return {[ "stdout" := PyNone;
                       "stderr" := PyStr ("Unexpected error: " +:+ type_name e +:+ LF
                                          +:+ "Details: " +:+ exn_str e);
                       "returncode" := PyInt (-1) ]}).
Proof.
  intros * Hcalls Hrun. subst r.
  rewrite (raised_call_result _ _ _ _ _ _ _ _ _ _ Hcalls Hrun).
  split; [by intros ->|]. by destruct e.
Qed.

Lemma interrupt_and_unexpected_outcome_witness :
  let r := sample_execute_command (PyList [PyInt 1]) 30 "latin-1" "ignore" false PyNone
             None Sample.initial in
  ∃ p,
    run_calls r.2 = run_calls Sample.initial ++ [p]
    ∧ Sample.run_process p = Raise (TypeError "expected str, bytes or os.PathLike object")
    ∧ r.1 = Return {[ "stdout" := PyNone;
                      "stderr" := PyStr ("Unexpected error: TypeError" +:+ LF
                                 +:+ "Details: expected str, bytes or os.PathLike object");
                      "returncode" := PyInt (-1) ]}.
Proof.
  intros r. eexists. split; [reflexivity|].
  split; [reflexivity|].
  eapply (interrupt_and_unexpected_outcome (rt := Sample.runtime) (PyList [PyInt 1]) 30
            "latin-1" "ignore" false PyNone None Sample.initial _
            (TypeError "expected str, bytes or os.PathLike object"));
    reflexivity.
Defined.

(** With a codec that always decodes under the [replace] policy,
    [safe_decode] always returns. *)
Lemma safe_decode_returns {rt : Runtime} enc err data :
  (∀ b, ∃ s, bytes_decode b enc "replace" = Done s) →
  ∃ s, safe_decode enc err data = Return s.
Proof.
  intros Hreplace. unfold safe_decode. destruct data as [b|]; [|eauto].
  destruct (bytes_decode b enc err) as [s|[msg|name msg]]; eauto.
  destruct (Hreplace b) as [s ->]. eauto.
Qed.

(** X10: when no exception escapes.  If the name of the command can be
    taken (a list with a first element, a text with a first word), the
    codec always decodes under the [replace] policy, and the process layer
    raises nothing that derives from [BaseException] only besides
    [KeyboardInterrupt], then the call returns an outcome. *)
Theorem outcome_always_returned {rt : Runtime} :
  ∀ command timeout encoding errors shell input_data environment w name,
    cmd_name (prepare_command command shell).1 = Return name →
    (∀ b, ∃ s, bytes_decode b encoding "replace" = Done s) →
    (∀ p msg, subprocess_run p ≠ Raise (SystemExit msg)) →
    ∃ d, (execute_command command timeout encoding errors shell input_data
            environment w).1 = Return d.
Proof.
  intros * Hname Hreplace Hexit.
  assert (Hdec : ∀ data, ∃ s, safe_decode encoding errors data = Return s)
    by (intros; by apply safe_decode_returns).
  destruct (valid_command_type command) eqn:Hv;
    [|rewrite execute_command_invalid by done; simpl; eauto].
  rewrite execute_command_cases by done. simpl.
  destruct (prepare_input encoding input_data) as [input|e] eqn:Hin.
  - destruct (subprocess_run _) as [completed|e] eqn:Hrun.
    + unfold completed_outcome.
      destruct (Hdec (cp_stdout completed)) as [so ->].
      destruct (Hdec (cp_stderr completed)) as [se ->]. simpl. eauto.
    + unfold handlers. unfold_py. rewrite Hname.
      destruct e as [rc out err msg|out err msg| | | |msg| |]; simpl; eauto.
      * destruct (Hdec out) as [so Hso]. rewrite Hso.
        destruct err as [b|]; [|simpl; eauto].
        destruct (Hdec (Some b)) as [se Hse]. rewrite Hse. simpl. eauto.
      * destruct out as [b|]; [destruct (Hdec (Some b)) as [so Hso]; rewrite Hso|];
          (destruct err as [b'|];
             [destruct (Hdec (Some b')) as [se Hse]; rewrite Hse|]); simpl; eauto.
      * by destruct (Hexit _ msg Hrun).
  - destruct (prepare_input_raises _ _ _ Hin) as [c ->].
    rewrite handlers_codec_exn. simpl. eauto.
Qed.

(** The sample process layer raises no [SystemExit]. *)
Lemma sample_spawn_never_exits program arguments p msg :
  Sample.spawn program arguments p ≠ Raise (SystemExit msg).
Proof.
  unfold Sample.spawn, Sample.sh_script, Sample.timed_out, Sample.exited.
  repeat case_match; discriminate.
Qed.

Lemma sample_run_never_exits p msg : Sample.run_process p ≠ Raise (SystemExit msg).
Proof.
  assert (Hshell : ∀ line, Sample.run_shell line p ≠ Raise (SystemExit msg)).
  { intros line. unfold Sample.run_shell.
    destruct (Sample.split line) as [[|program arguments]|]; try discriminate.
    pose proof (sample_spawn_never_exits program arguments p msg) as Hspawn.
    destruct (Sample.spawn program arguments p) as [c|[]]; try discriminate; done. }
  unfold Sample.run_process.
  repeat case_match; try discriminate; auto using sample_spawn_never_exits.
Qed.

Lemma outcome_always_returned_witness :
  let command := PyStr "no_such_program --version" in
  cmd_name (prepare_command (rt := Sample.runtime) command false).1
  = Return (PyStr "no_such_program")
  ∧ ∃ d, (sample_execute_command command 30 "latin-1" "strict" false PyNone None
            Sample.initial).1 = Return d.
Proof.
  intros command. split; [reflexivity|].
  apply (outcome_always_returned (rt := Sample.runtime) command 30 "latin-1" "strict"
           false PyNone None Sample.initial (PyStr "no_such_program")).
  - reflexivity.
  - intros b. eexists. reflexivity.
  - apply sample_run_never_exits.
Defined.

(** X11: for a text command run without the shell, the name reported for
    a missing executable is the first token of [shlex.split], quotes
    removed, not the first word of the text; only when tokenization fails
    is it the first whitespace-delimited word.  A text without token or
    word has no name: [IndexError] leaves the function. *)
Theorem not_found_names_first_token {rt : Runtime} :
  ∀ (s : string) timeout encoding errors input_data environment w p msg,
    let r := execute_command (PyStr s) timeout encoding errors false input_data
               environment w in
    let found name : result (gmap string pyobj) :=
      Return {[ "stdout" := PyNone;
                "stderr" := PyStr ("Command not found: " +:+ name +:+ LF
                                   +:+ "Error: " +:+ msg);
                "returncode" := PyInt (-4) ]} in
    run_calls r.2 = run_calls w ++ [p] →
    subprocess_run p = Raise (FileNotFoundError msg) →
    r.1 = match shlex_split s with
          | Some (token :: _) => found token
          | Some [] => Raise (IndexError "list index out of range")
          | None =>
              match str_split s with
              | word :: _ => found word
              | [] => Raise (IndexError "list index out of range")
              end
          end.
Proof.
  intros * Hcalls Hrun. subst r found.
  rewrite (raised_call_result _ _ _ _ _ _ _ _ _ _ Hcalls Hrun).
  unfold handlers, prepare_command, cmd_name. unfold_py. simpl.
  destruct (shlex_split s) as [[|token tokens]|]; simpl; [done|done|].
  by destruct (str_split s).
Qed.

Lemma not_found_names_first_token_witness :
  let s := "'my tool' --version" in
  let r := sample_execute_command (PyStr s) 30 "latin-1" "ignore" false PyNone None
             Sample.initial in
  let msg := "[Errno 2] No such file or directory: 'my tool'" in
  ∃ p,
    run_calls r.2 = run_calls Sample.initial ++ [p]
    ∧ Sample.run_process p = Raise (FileNotFoundError msg)
    ∧ Sample.split s = Some ["my tool"; "--version"]
    ∧ r.1 = Return {[ "stdout" := PyNone;
                      "stderr" := PyStr ("Command not found: my tool" +:+ LF
                                         +:+ "Error: " +:+ msg);
                      "returncode" := PyInt (-4) ]}.
Proof.
  intros s r msg. eexists. split; [reflexivity|].
  split; [reflexivity|]. split; [reflexivity|].
  exact (not_found_names_first_token (rt := Sample.runtime) s 30 "latin-1" "ignore"
           PyNone None Sample.initial _ msg eq_refl eq_refl).
Defined.

(** X12: for a list command the shell flag plays no part in the name:
    a missing executable gives code -4 and a refused one code -5, each
    naming the first element of the list; an empty list has no name and
    [IndexError] leaves the function. *)
Theorem list_command_spawn_failure {rt : Runtime} :
  ∀ (l : list pyobj) timeout encoding errors shell input_data environment w p msg,
    let r := execute_command (PyList l) timeout encoding errors shell input_data
               environment w in
    let failed (label : string) (code : Z) : result (gmap string pyobj) :=
      match l with
      | x :: _ =>
          Return {[ "stdout" := PyNone;
                    "stderr" := PyStr (label +:+ format_value x +:+ LF
                                       +:+ "Error: " +:+ msg);
                    "returncode" := PyInt code ]}
      | [] => Raise (IndexError "list index out of range")
      end in
    run_calls r.2 = run_calls w ++ [p] →
    (subprocess_run p = Raise (FileNotFoundError msg) →
     r.1 = failed "Command not found: " (-4))
    ∧ (subprocess_run p = Raise (PermissionError msg) →
       r.1 = failed "Permission denied for command: " (-5)).
Proof.
  intros * Hcalls. subst r failed.
  split; intros Hrun; rewrite (raised_call_result _ _ _ _ _ _ _ _ _ _ Hcalls Hrun);
    unfold handlers; unfold_py; simpl; by destruct l.
Qed.

Lemma list_command_spawn_failure_witness :
  let r := sample_execute_command (PyList [PyStr "/etc/shadow"; PyStr "-x"]) 30 "latin-1"
             "ignore" false PyNone None Sample.initial in
  let msg := "[Errno 13] Permission denied: '/etc/shadow'" in
  ∃ p,
    run_calls r.2 = run_calls Sample.initial ++ [p]
    ∧ Sample.run_process p = Raise (PermissionError msg)
    ∧ r.1 = Return {[ "stdout" := PyNone;
                      "stderr" := PyStr ("Permission denied for command: /etc/shadow"
                                         +:+ LF +:+ "Error: " +:+ msg);
                      "returncode" := PyInt (-5) ]}.
Proof.
  intros r msg. eexists. split; [reflexivity|].
  split; [reflexivity|].
  exact (proj2 (list_command_spawn_failure (rt := Sample.runtime)
                  [PyStr "/etc/shadow"; PyStr "-x"] 30 "latin-1" "ignore" false PyNone
                  None Sample.initial _ msg eq_refl) eq_refl).
Defined.

(** X13: a timeout that carries no partial output always gives the
    timeout outcome, with any encoding: nothing is decoded, the output is
    empty and the error text is the note alone. *)
Theorem timeout_without_output {rt : Runtime} :
  ∀ command timeout encoding errors shell input_data environment w p msg,
    let r := execute_command command timeout encoding errors shell input_data
               environment w in
    run_calls r.2 = run_calls w ++ [p] →
    subprocess_run p = Raise (TimeoutExpired None None msg) →
    r.1 = Return {[ "stdout" := PyStr "";
                    "stderr" := PyStr (LF +:+ "Command timed out after " +:+ pretty timeout
                                       +:+ " seconds");
                    "returncode" := PyInt (-3);
                    "timeout" := PyBool true ]}.
Proof.
  intros * Hcalls Hrun. subst r.
  by rewrite (raised_call_result _ _ _ _ _ _ _ _ _ _ Hcalls Hrun).
Qed.

Lemma timeout_without_output_witness :
  let r := sample_execute_command (PyStr "sleep infinity") 2 "utf-9" "strict" false PyNone
             None Sample.initial in
  ∃ p msg,
    run_calls r.2 = run_calls Sample.initial ++ [p]
    ∧ Sample.run_process p = Raise (TimeoutExpired None None msg)
    ∧ r.1 = Return {[ "stdout" := PyStr "";
                      "stderr" := PyStr (LF +:+ "Command timed out after 2 seconds");
                      "returncode" := PyInt (-3);
                      "timeout" := PyBool true ]}.
Proof.
  intros r. eexists _, _. split; [reflexivity|].
  split; [reflexivity|].
  eapply (timeout_without_output (rt := Sample.runtime) (PyStr "sleep infinity") 2
            "utf-9" "strict" false PyNone None Sample.initial);
    reflexivity.
Defined.

(** ** The environment and the interpreter state *)

(** X14: the environment handed to the child, variable by variable: a
    variable named in the overrides has the overriding value, any other
    has the value it has in [os.environ], and no variable appears from
    elsewhere. *)
Theorem override_takes_precedence {rt : Runtime} :
  ∀ command timeout encoding errors shell input_data overrides w p,
    run_calls (execute_command command timeout encoding errors shell input_data
                 (Some overrides) w).2 = run_calls w ++ [p] →
    ∃ env : gmap string string,
      p_env p = Some env
      ∧ ∀ variable,
          env !! variable
          = match overrides !! variable with
            | Some value => Some value
            | None => default ∅ (store w !! os_environ) !! variable
            end.
Proof.
  intros * Hcalls.
  destruct (execute_command command timeout encoding errors shell input_data
              (Some overrides) w) as [r w'] eqn:H. simpl in Hcalls.
  apply execute_command_world in H as [->|(input & _ & _ & ->)];
    [by apply app_singleton_neq in Hcalls|].
  simpl in Hcalls. apply app_singleton_inj in Hcalls as <-. simpl.
  eexists. split; [done|]. intros variable.
  destruct (overrides !! variable) as [value|] eqn:Hov.
  - by apply lookup_union_Some_l.
  - by apply lookup_union_r.
Qed.

Lemma override_takes_precedence_witness :
  let overrides : gmap string string := {[ "LANG" := "fr_FR" ]} in
  ∃ p env,
    run_calls (sample_execute_command (PyStr "echo hello") 30 "latin-1" "ignore" false
                 PyNone (Some overrides) Sample.initial).2
    = run_calls Sample.initial ++ [p]
    ∧ p_env p = Some env
    ∧ env !! "LANG" = Some "fr_FR"
    ∧ env !! "HOME" = Some "/root"
    ∧ env !! "SHELL" = None.
Proof.
  intros overrides.
  edestruct (override_takes_precedence (rt := Sample.runtime) (PyStr "echo hello") 30
               "latin-1" "ignore" false PyNone overrides Sample.initial)
    as (env & Henv & Hlookup); [reflexivity|].
  eexists _, env. split; [reflexivity|]. split; [exact Henv|].
  rewrite !Hlookup. repeat split; reflexivity.
Defined.

(** X15: no dictionary object that exists before the call is written by
    it, [os.environ] or any other; the only object the call may add is
    the overlay it builds when overrides are given. *)
Theorem existing_dictionaries_untouched {rt : Runtime} :
  ∀ command timeout encoding errors shell input_data environment w (r : positive),
    let w' := (execute_command command timeout encoding errors shell input_data
                 environment w).2 in
    store w' !! r = store w !! r
    ∨ (store w !! r = None
       ∧ ∃ overrides,
           environment = Some overrides
           ∧ store w' !! r = Some (overrides ∪ default ∅ (store w !! os_environ))).
Proof.
  intros. subst w'.
  destruct (execute_command command timeout encoding errors shell input_data
              environment w) as [res w'] eqn:H. simpl.
  apply execute_command_world in H as [->|(input & _ & _ & ->)]; [by left|].
  simpl. destruct environment as [overrides|]; simpl; [|by left].
  destruct (decide (r = fresh (dom (store w)))) as [->|Hne].
  - right. split.
    + apply not_elem_of_dom. apply is_fresh.
    + exists overrides. by rewrite lookup_insert_eq.
  - left. by rewrite lookup_insert_ne.
Qed.





(** ** The texts of the plugin window *)

Lemma append_cons (a : ascii) (s t : string) : String a s +:+ t = String a (s +:+ t).
Proof. reflexivity. Qed.

Lemma append_nil_l (s : string) : "" +:+ s = s.
Proof. reflexivity. Qed.

Lemma append_nil_r (s : string) : s +:+ "" = s.
Proof. induction s as [|a s IH]; [done|]. by rewrite append_cons, IH. Qed.

Lemma append_assoc (s t u : string) : (s +:+ t) +:+ u = s +:+ t +:+ u.
Proof. induction s as [|a s IH]; [done|]. by rewrite !append_cons, IH. Qed.

(** A line that holds no boundary holds none either when a newline
    follows it. *)
Lemma linebreak_width_app (t : string) (c : ascii) (u : string) :
  t ≠ "" →
  linebreak_width t = 0%nat →
  (N_of_ascii c = 10 ∨ N_of_ascii c = 13)%N →
  linebreak_width (t +:+ String c u) = 0%nat.
Proof.
  intros Ht Hw Hc.
  destruct t as [|c0 [|c1 [|c2 t3]]]; [done| | |];
    rewrite ?append_cons, ?append_nil_l;
    unfold linebreak_width, byte_at in *; simpl in *;
    destruct Hc as [Hc|Hc]; rewrite ?Hc; repeat byte_case.
Qed.

Lemma single_line_cons (c : ascii) (s : string) :
  single_line (String c s) = true →
  linebreak_width (String c s) = 0%nat ∧ single_line s = true.
Proof.
  simpl. intros [H1 H2]%andb_prop. split; [|done]. by apply bool_decide_eq_true in H1.
Qed.

(** Reading a line up to the newline that ends it. *)
Lemma splitlines_from_line (l sep rest cur : string) :
  single_line l = true →
  sep = LF ∨ sep = CRLF →
  splitlines_from 0 cur (l +:+ sep +:+ rest) = (cur +:+ l) :: splitlines_from 0 "" rest.
Proof.
  intros Hl Hsep. revert cur. induction l as [|c l IH]; intros cur.
  - rewrite append_nil_l, append_nil_r. by destruct Hsep as [-> | ->].
  - apply single_line_cons in Hl as [Hw Hl].
    rewrite append_cons. simpl.
    replace (String c (l +:+ sep +:+ rest)) with (String c l +:+ sep +:+ rest)
      by apply append_cons.
    assert (linebreak_width (String c l +:+ sep +:+ rest) = 0%nat) as ->.
    { destruct Hsep as [-> | ->].
      - apply (linebreak_width_app (String c l) "010"%char rest); auto.
      - apply (linebreak_width_app (String c l) "013"%char (LF +:+ rest)); auto. }
    rewrite (IH Hl). f_equal. by rewrite append_assoc.
Qed.

(** Reading the last line. *)
Lemma splitlines_from_single (l cur : string) :
  single_line l = true →
  splitlines_from 0 cur l = flush (cur +:+ l).
Proof.
  revert cur. induction l as [|c l IH]; intros cur Hl.
  - by rewrite append_nil_r.
  - apply single_line_cons in Hl as [Hw Hl]. simpl. rewrite Hw.
    rewrite (IH _ Hl). by rewrite append_assoc.
Qed.

Lemma has_text_empty : has_text "" = false.
Proof. reflexivity. Qed.

(** Lines joined by newlines are read back, but for the blank ones. *)
Lemma splitlines_join_text (sep : string) (ls : list string) :
  sep = LF ∨ sep = CRLF →
  Forall (λ l, single_line l = true) ls →
  filter has_text (splitlines (str_join sep ls)) = filter has_text ls.
Proof.
  intros Hsep Hls. induction Hls as [|x ls Hx Hls IH]; [done|].
  destruct ls as [|y ls'].
  - simpl. unfold splitlines. rewrite splitlines_from_single by done.
    rewrite append_nil_l. by destruct x.
  - change (str_join sep (x :: y :: ls')) with (x +:+ sep +:+ str_join sep (y :: ls')).
    unfold splitlines. rewrite splitlines_from_line by done. rewrite append_nil_l.
    fold (splitlines (str_join sep (y :: ls'))).
    rewrite !(filter_cons _ x). by rewrite IH.
Qed.

Lemma prefix_app (t u : string) : String.prefix t (t +:+ u) = true.
Proof.
  induction t as [|c t IH]; [by destruct u|].
  rewrite append_cons. simpl. by destruct (ascii_dec c c).
Qed.

Lemma str_contains_prefix (needle text : string) :
  String.prefix needle text = true → str_contains needle text = true.
Proof. intros H. destruct text; cbn [str_contains]; by rewrite H. Qed.

Lemma str_contains_app (needle before after : string) :
  str_contains needle (before +:+ needle +:+ after) = true.
Proof.
  induction before as [|c before IH].
  - rewrite append_nil_l. apply str_contains_prefix, prefix_app.
  - rewrite append_cons. cbn [str_contains]. rewrite IH. apply orb_true_r.
Qed.

(** X17: a requirements text of one requirement per line, the lines
    ended by LF or CR LF, is shown as the header followed by the lines that
    are not blank, in their order, each indented by four spaces and
    separated by [os.linesep]; blank lines are dropped. *)
Theorem dependencies_listed_line_by_line :
  ∀ (linesep title intro licence sep : string) (requirements : list string),
    sep = LF ∨ sep = CRLF →
    Forall (λ line, single_line line = true) requirements →
    str_contains no_dependencies (str_join sep requirements) = false →
    DependPageText (updateContent linesep title intro (str_join sep requirements) licence)
    = dependencies_header +:+ LF
      +:+ str_join linesep ((λ line, "    " +:+ line) <$> filter has_text requirements).
Proof.
  intros * Hsep Hlines Hphrase. simpl. unfold depend_page_text.
  rewrite Hphrase. simpl. by rewrite splitlines_join_text.
Qed.

Lemma dependencies_listed_line_by_line_witness :
  let requirements := ["requests>=2.0"; ""; "  "; "PySide6"] in
  DependPageText (updateContent CRLF "Weather" "" (str_join LF requirements) "MIT")
  = dependencies_header +:+ LF +:+ "    requests>=2.0" +:+ CRLF +:+ "    PySide6".
Proof.
  intros requirements.
  refine (dependencies_listed_line_by_line CRLF "Weather" "" "MIT" LF requirements
            _ _ _); [by left| |reflexivity].
  repeat constructor.
Defined.

(** X18: a text that holds the phrase of the default, "no dependencies",
    anywhere is shown exactly as it is, neither split nor indented. *)
Theorem no_dependencies_shown_verbatim :
  ∀ (linesep title intro licence before after : string),
    DependPageText (updateContent linesep title intro
                      (before +:+ no_dependencies +:+ after) licence)
    = before +:+ no_dependencies +:+ after.
Proof.
  intros. simpl. unfold depend_page_text. by rewrite str_contains_app.
Qed.
